(** * pybug: triangle meshes with attached fields, and the transform protocol

    A shallow embedding of

    - [pybug/spatialdata/mesh/__init__.py]: the class [TriMesh] with
      [attach_texture], [add_trifield] and [trimesh_from_pointmask];
    - [pybug/transform/base.py]: [Transform.apply] and the [Transformable]
      interface.

    Python exceptions are values of [exn]; a call either returns or raises
    ([result]).  A method that mutates its receiver is a state transformer on
    the receiver that keeps the state reached when the exception was raised
    ([M]).  numpy arrays are modelled along their leading axis, which is the
    only axis the code indexes. *)

From Stdlib Require Import ZArith List Bool Lia.
From stdpp Require Import base list sorting strings gmap fin_maps pretty.

Open Scope Z_scope.

(** ** Exceptions and the state-and-error monad *)

Inductive exn : Type :=
  | IndexError
  | TriFieldError (msg : string)
  | TextureError (msg : string)
  | PointFieldError (msg : string)
  | NameError (name : string)
  | TypeError (msg : string)
  | AttributeError (msg : string)
  | Exception (msg : string).

Inductive result (A : Type) : Type :=
  | Ok (a : A)
  | Err (e : exn).
Arguments Ok {A} a.
Arguments Err {A} e.

Definition rbind {A B} (r : result A) (k : A -> result B) : result B :=
  match r with Ok a => k a | Err e => Err e end.

(** A computation over a mutable state [S]: the state survives a raise. *)
Definition M (S A : Type) : Type := S -> S * result A.

Definition ret {S A} (a : A) : M S A := fun s => (s, Ok a).
Definition raise {S A} (e : exn) : M S A := fun s => (s, Err e).
Definition bind {S A B} (c : M S A) (k : A -> M S B) : M S B :=
  fun s => match c s with
           | (s', Ok a) => k a s'
           | (s', Err e) => (s', Err e)
           end.
Definition get {S} : M S S := fun s => (s, Ok s).
Definition modify {S} (f : S -> S) : M S unit := fun s => (f s, Ok tt).
Definition lift {S A} (r : result A) : M S A := fun s => (s, r).

Notation "'let*' x := c 'in' k" := (bind c (fun x => k))
  (at level 10, x name, c at level 100, k at level 200).
Notation "'do' c 'then' k" := (bind c (fun _ => k))
  (at level 10, c at level 100, k at level 200).

(** Running a computation on a local object [obj] from within a computation
    over another state: the caller continues with the object as mutated, or
    sees the exception. *)
Definition on_object {S O A} (obj : O) (c : M O A) : M S (O * A) :=
  fun s => match c obj with
           | (obj', Ok a) => (s, Ok (obj', a))
           | (_, Err e) => (s, Err e)
           end.

(** [for x in xs: body x], stopping at the first raise. *)
Fixpoint for_each {S A} (xs : list A) (body : A -> M S unit) : M S unit :=
  match xs with
  | [] => ret tt
  | x :: xs' => bind (body x) (fun _ => for_each xs' body)
  end.

(** [mapM] in [result]: the first failing element decides. *)
Fixpoint mapR {A B} (f : A -> result B) (xs : list A) : result (list B) :=
  match xs with
  | [] => Ok []
  | x :: xs' => rbind (f x) (fun y => rbind (mapR f xs') (fun ys => Ok (y :: ys)))
  end.

(** ** numpy, along the leading axis *)

Module Np.

(** [np.arange(n)] *)
Definition arange (n : nat) : list Z := seqZ 0 (Z.of_nat n).

(** [np.zeros(n)]; the entries only ever hold integral values. *)
Definition zeros (n : nat) : list Z := replicate n 0.

(** Position addressed by an integer index into an axis of length [n]:
    negative indices count from the end, anything outside [-n, n) raises. *)
Definition norm_index (n : nat) (i : Z) : result nat :=
  if (0 <=? i) && (i <? Z.of_nat n) then Ok (Z.to_nat i)
  else if (- Z.of_nat n <=? i) && (i <? 0) then Ok (Z.to_nat (Z.of_nat n + i))
  else Err IndexError.

(** [a[i]] for one integer [i]. *)
Definition getitem {A} (a : list A) (i : Z) : result A :=
  rbind (norm_index (length a) i)
        (fun k => match a !! k with Some x => Ok x | None => Err IndexError end).

(** [a[idx]] for an integer index array [idx]. *)
Definition take {A} (a : list A) (idx : list Z) : result (list A) :=
  mapR (getitem a) idx.

(** [a[mask]] for a boolean array [mask] over the leading axis. *)
Fixpoint compress {A} (mask : list bool) (a : list A) : list A :=
  match mask, a with
  | b :: mask', x :: a' => if b then x :: compress mask' a' else compress mask' a'
  | _, _ => []
  end.

(** A boolean index has to be as long as the axis it indexes. *)
Definition getitem_mask {A} (a : list A) (mask : list bool) : result (list A) :=
  if Nat.eqb (length mask) (length a) then Ok (compress mask a)
  else Err IndexError.

(** [a[i] = v] *)
Definition setitem {A} (a : list A) (i : Z) (v : A) : result (list A) :=
  rbind (norm_index (length a) i) (fun k => Ok (<[k := v]> a)).

(** [a[idx] = vals], element by element, for arrays of equal length. *)
Fixpoint put {A} (a : list A) (idx : list Z) (vals : list A) : result (list A) :=
  match idx, vals with
  | i :: idx', v :: vals' => rbind (setitem a i v) (fun a' => put a' idx' vals')
  | _, _ => Ok a
  end.

(** [np.in1d(xs, ys)]: membership of each element of [xs] in [ys]. *)
Definition in1d (xs ys : list Z) : list bool :=
  map (fun x => existsb (Z.eqb x) ys) xs.

(** Insertion into a strictly increasing list. *)
Fixpoint insert_sorted (x : Z) (l : list Z) : list Z :=
  match l with
  | [] => [x]
  | y :: l' => if x <? y then x :: y :: l'
               else if x =? y then y :: l'
               else y :: insert_sorted x l'
  end.

(** [np.unique(xs)]: the distinct values, ascending. *)
Definition unique (xs : list Z) : list Z := foldr insert_sorted [] xs.

(** [.astype(np.uint32)] of an integral value: reduction modulo 2^32. *)
Definition to_uint32 (v : Z) : Z := v mod 2 ^ 32.

End Np.

(** ** Classes of the mesh module *)

(** The classes the module [pybug.spatialdata.mesh] can be handed as
    [astype]: its own, the one it imports, and classes defined elsewhere,
    known by their qualified names.  [ClsDerived] is a class that derives
    from [TriMesh] and inherits [__init__] and the field methods as they
    are; [ClsForeign] is a class that does not derive from [TriMesh].  A
    class that derives from [TriMesh] and replaces what the module calls is
    not represented: what it does is written nowhere in the module. *)
Inductive pyclass : Type :=
  | ClsTriMesh
  | ClsFastTriMesh
  | ClsPolyMesh
  | ClsPointCloud3d
  | ClsDerived (qualname : string)
  | ClsForeign (qualname : string).

(** [type(self)] of a [TriMesh] instance: a class for which
    [issubclass(c, TriMesh)] holds. *)
Inductive mesh_variant : Type :=
  | PlainTriMesh
  | FastTriMesh
  | DerivedTriMesh (qualname : string).

(** The class as a mesh variant, when [issubclass(c, TriMesh)]. *)
Definition as_trimesh_class (c : pyclass) : option mesh_variant :=
  match c with
  | ClsTriMesh => Some PlainTriMesh
  | ClsFastTriMesh => Some FastTriMesh
  | ClsDerived q => Some (DerivedTriMesh q)
  | ClsPolyMesh | ClsPointCloud3d | ClsForeign _ => None
  end.

Definition qualname_of (c : pyclass) : string :=
  match c with
  | ClsTriMesh => "pybug.spatialdata.mesh.TriMesh"
  | ClsFastTriMesh => "pybug.spatialdata.mesh.FastTriMesh"
  | ClsPolyMesh => "pybug.spatialdata.mesh.PolyMesh"
  | ClsPointCloud3d => "pybug.spatialdata.PointCloud3d"
  | ClsDerived q => q
  | ClsForeign q => q
  end.

(** The value of the keyword argument [astype]: a string or a class. *)
Inductive pyvalue : Type :=
  | PyStr (s : string)
  | PyClass (c : pyclass).

(** The backtick [repr] of an integer, of a string free of quotes, and of a
    class. *)
Definition repr_nat (n : nat) : string := pretty n.

Definition repr (v : pyvalue) : string :=
  match v with
  | PyStr s => "'" ++ s ++ "'"
  | PyClass c => "<class '" ++ qualname_of c ++ "'>"
  end.

(** [issubclass(v, TriMesh)]: a type error when [v] is no class. *)
Definition issubclass_TriMesh (v : pyvalue) : result (option mesh_variant) :=
  match v with
  | PyStr _ => Err (TypeError "issubclass() arg 1 must be a class")
  | PyClass c => Ok (as_trimesh_class c)
  end.

(** The names bound at module level in [mesh/__init__.py] (its imports and
    its class statements), and the builtin the module uses. *)
Definition module_globals : list string :=
  ["np"; "PointCloud3d"; "FieldError"; "CppTriangleMesh"; "TriMeshViewer3d";
   "TexturedTriMeshViewer3d"; "TriFieldError"; "TriMesh"; "FastTriMesh";
   "PolyMesh"].
Definition builtins : list string := ["Exception"].

(** Evaluation of a global name. *)
Definition load_global (name : string) : result unit :=
  if existsb (String.eqb name) (module_globals ++ builtins) then Ok tt
  else Err (NameError name).

(** [raise name(...)]: the class name is looked up first. *)
Definition raise_named {S A} (name : string) (e : exn) : M S A :=
  do lift (load_global name) then raise e.

(** ** Arrays with a leading axis, triangles, meshes *)

(** A triangle: three indices into the point array. *)
Definition tri : Type := Z * Z * Z.

(** [trilist.ravel()] and [.reshape((T, 3))] *)
Definition ravel (tl : list tri) : list Z :=
  flat_map (fun t => match t with (a, b, c) => [a; b; c] end) tl.

Fixpoint reshape3 {A} (l : list A) : list (A * A * A) :=
  match l with
  | a :: b :: c :: l' => (a, b, c) :: reshape3 l'
  | _ => []
  end.

(** [np.all(m, axis=1)] on a (T, 3) boolean array *)
Definition all_axis1 (m : list (bool * bool * bool)) : list bool :=
  map (fun r => match r with (a, b, c) => a && b && c end) m.

(** [a[tl]] for a (T, 3) index array [tl] into a one-dimensional [a]. *)
Definition take_tris {A} (a : list A) (tl : list tri) : result (list (A * A * A)) :=
  mapR (fun t => match t with
                 | (i, j, k) =>
                     rbind (Np.getitem a i) (fun x =>
                     rbind (Np.getitem a j) (fun y =>
                     rbind (Np.getitem a k) (fun z => Ok (x, y, z))))
                 end) tl.

(** A texture image is shared by reference: its identity is all a mesh holds. *)
Definition texture_ref : Type := nat.

(** A constructor call, as seen from outside. *)
Inductive event : Type :=
  | Instantiate (cls : mesh_variant).

Section Mesh.

(** The element type of point and field arrays; the code only moves
    elements around. *)
Variable scalar : Type.

(** An array of shape [length rows :: item_shape]; a row is the flattened
    sub-array at one position of the leading axis.  Arrays without any axis,
    on which [shape[0]] itself fails, are not represented. *)
Record ndarray : Type := mk_ndarray {
  item_shape : list nat;
  rows : list (list scalar)
}.

Definition shape (a : ndarray) : list nat := length (rows a) :: item_shape a.

(** [a.shape[0]] *)
Definition shape0 (a : ndarray) : nat := length (rows a).

Definition shape_eqb (s1 s2 : list nat) : bool :=
  bool_decide (s1 = s2).

(** [a[idx]] and [a[mask]] along the leading axis. *)
Definition nd_take (a : ndarray) (idx : list Z) : result ndarray :=
  rbind (Np.take (rows a) idx) (fun rs => Ok (mk_ndarray (item_shape a) rs)).

Definition nd_mask (a : ndarray) (mask : list bool) : result ndarray :=
  rbind (Np.getitem_mask (rows a) mask) (fun rs => Ok (mk_ndarray (item_shape a) rs)).

(** [a[tl]] for a (T, 3) index array: shape (T, 3) + a.shape[1:]. *)
Definition nd_take_tris (a : ndarray) (tl : list tri) : result ndarray :=
  rbind (take_tris (rows a) tl)
        (fun rs => Ok (mk_ndarray (3%nat :: item_shape a)
                         (map (fun r => match r with (x, y, z) => x ++ y ++ z end) rs))).

(** The attributes of a [TriMesh] instance; [points] and [pointfields] are
    inherited from [PointCloud3d]. *)
Record TriMesh : Type := mk_TriMesh {
  cls : mesh_variant;
  points : ndarray;
  pointfields : gmap string ndarray;
  trilist : list tri;
  trifields : gmap string ndarray;
  texture : option texture_ref
}.

Definition set_pointfields (f : gmap string ndarray -> gmap string ndarray)
    (m : TriMesh) : TriMesh :=
  mk_TriMesh (cls m) (points m) (f (pointfields m)) (trilist m) (trifields m) (texture m).
Definition set_trifields (f : gmap string ndarray -> gmap string ndarray)
    (m : TriMesh) : TriMesh :=
  mk_TriMesh (cls m) (points m) (pointfields m) (trilist m) (f (trifields m)) (texture m).
Definition set_texture (t : option texture_ref) (m : TriMesh) : TriMesh :=
  mk_TriMesh (cls m) (points m) (pointfields m) (trilist m) (trifields m) t.

(** Modelled from the spec: [PointCloud3d.n_points], the number N of points
    of the point cloud ([PointCloud3d] is imported, its source is not part of
    the module). *)
Definition n_points (m : TriMesh) : nat := shape0 (points m).

Definition n_tris (m : TriMesh) : nat := length (trilist m).

(** Modelled from the spec: [PointCloud3d.__init__], which stores the points
    and starts with an empty point-field table, followed by the body of
    [TriMesh.__init__].  [FastTriMesh.__init__] first hands points and
    triangles to the native [CppTriangleMesh], which keeps them outside the
    Python attributes; a derived class runs the inherited
    [TriMesh.__init__]. *)
Definition TriMesh_init (c : mesh_variant) (pts : ndarray) (tl : list tri) : TriMesh :=
  mk_TriMesh c pts ∅ tl ∅ None.

Definition field_size_message (kind : string) (supplied required : nat) : string :=
  "Trying to add a field with " ++ repr_nat supplied ++
  " values (need one field value per " ++ kind ++ " => " ++
  repr_nat required ++ " values required".

(** Modelled from the spec: [PointCloud3d.add_pointfield], which inserts or
    overwrites the entry and fails, reporting both sizes, when the leading
    dimension is not N. *)
Definition add_pointfield (name : string) (field : ndarray) : M TriMesh unit :=
  let* self := get in
  if negb (Nat.eqb (shape0 field) (n_points self))
  then raise (PointFieldError (field_size_message "point" (shape0 field) (n_points self)))
  else modify (set_pointfields (insert name field)).

Definition add_trifield (name : string) (field : ndarray) : M TriMesh unit :=
  let* self := get in
  if negb (Nat.eqb (shape0 field) (n_tris self))
  then raise_named "TriFieldError"
         (TriFieldError (field_size_message "tri" (shape0 field) (n_tris self)))
  else modify (set_trifields (insert name field)).

Definition attach_texture (tex : option texture_ref) (tcoords : ndarray)
    (tcoords_trilist : option (list tri)) : M TriMesh unit :=
  do modify (set_texture tex) then
  let* self := get in
  match tcoords_trilist with
  | Some tl =>
      let* gathered := lift (nd_take_tris tcoords tl) in
      add_trifield "tcoords" gathered
  | None =>
      if shape_eqb (shape tcoords) [n_points self; 2%nat]
      then add_pointfield "tcoords" tcoords
      else if shape_eqb (shape tcoords) [n_tris self; 3%nat; 2%nat]
      then add_trifield "tcoords" tcoords
      else raise_named "TextureError"
             (TextureError "Don't understand how to deal with these tcoords.")
  end.

Definition instantiate (c : mesh_variant) (pts : ndarray) (tl : list tri)
    : M (list event) TriMesh :=
  do modify (fun log => log ++ [Instantiate c]) then
  ret (TriMesh_init c pts tl).

Definition is_self (astype : pyvalue) : bool :=
  match astype with
  | PyStr s => String.eqb s "self"
  | PyClass _ => false
  end.

(** The receiver is only read; the state is the log of constructor calls. *)
Definition trimesh_from_pointmask (self : TriMesh) (pointmask : list bool)
    (astype : pyvalue) : M (list event) TriMesh :=
  let orig_point_index := Np.arange (n_points self) in
  let* kept_points_orig_index := lift (Np.getitem_mask orig_point_index pointmask) in
  let trilist_mask :=
    reshape3 (Np.in1d (ravel (trilist self)) kept_points_orig_index) in
  let tris_mask := all_axis1 trilist_mask in
  let* kept_tris_orig_index := lift (Np.getitem_mask (trilist self) tris_mask) in
  let kept_points_orig_index := Np.unique (ravel kept_tris_orig_index) in
  let* new_points := lift (nd_take (points self) kept_points_orig_index) in
  let kept_points_new_index := Np.arange (length kept_points_orig_index) in
  let pi_map := Np.zeros (n_points self) in
  let* pi_map := lift (Np.put pi_map kept_points_orig_index kept_points_new_index) in
  let* mapped := lift (take_tris pi_map kept_tris_orig_index) in
  let new_trilist :=
    map (fun t => match t with
                  | (a, b, c) => (Np.to_uint32 a, Np.to_uint32 b, Np.to_uint32 c)
                  end) mapped in
  let* trimeshcls :=
    (if is_self astype then ret (cls self)
     else
       let* sub := lift (issubclass_TriMesh astype) in
       match sub with
       | Some c => ret c
       | None =>
           raise_named "Exception"
             (Exception ("The mesh type " ++ repr astype ++ " is not understood" ++
                         " (need to be an instance of TriMesh)"))
       end) in
  let* newtrimesh := instantiate trimeshcls new_points new_trilist in
  let* r1 := on_object newtrimesh
    (for_each (map_to_list (pointfields self)) (fun nf =>
       let* sliced := lift (nd_take nf.2 kept_points_orig_index) in
       add_pointfield nf.1 sliced)) in
  let* r2 := on_object r1.1
    (for_each (map_to_list (trifields self)) (fun nf =>
       let* sliced := lift (nd_mask nf.2 tris_mask) in
       add_trifield nf.1 sliced)) in
  ret (set_texture (texture self) r2.1).

End Mesh.

Arguments mk_ndarray {scalar} _ _.
Arguments item_shape {scalar} _.
Arguments rows {scalar} _.
Arguments shape {scalar} _.
Arguments shape0 {scalar} _.
Arguments nd_take {scalar} _ _.
Arguments nd_mask {scalar} _ _.
Arguments nd_take_tris {scalar} _ _.
Arguments mk_TriMesh {scalar} _ _ _ _ _ _.
Arguments cls {scalar} _.
Arguments points {scalar} _.
Arguments pointfields {scalar} _.
Arguments trilist {scalar} _.
Arguments trifields {scalar} _.
Arguments texture {scalar} _.
Arguments set_pointfields {scalar} _ _.
Arguments set_trifields {scalar} _ _.
Arguments set_texture {scalar} _ _.
Arguments n_points {scalar} _.
Arguments n_tris {scalar} _.
Arguments TriMesh_init {scalar} _ _ _.
Arguments add_pointfield {scalar} _ _ _.
Arguments add_trifield {scalar} _ _ _.
Arguments attach_texture {scalar} _ _ _ _.
Arguments instantiate {scalar} _ _ _ _.
Arguments trimesh_from_pointmask {scalar} _ _ _ _.


(** ** The transform protocol *)

Module Transform.

Section Protocol.

(** Python values handed around (coordinate arrays and anything a caller
    passes for one), and the keyword options of a call. *)
Variable value : Type.
Variable kwargs : Type.

(** The abstract base class [Transform]: what a transform family supplies. *)
Class Transform (T : Type) : Type := {
  _apply : T -> value -> kwargs -> result value;
  jacobian : T -> value -> result value;
  compose : T -> T -> result T;
  inverse : T -> result T;
  from_parameters : value -> result T;
  parameters : T -> result value
}.

(** A target of [apply]: the object itself and, when it has the attribute,
    its bound method [_transform], which is handed a closure and returns or
    raises.  What the method does to the target's own state is not
    recorded. *)
Record target : Type := mk_target {
  obj : value;
  _transform : option ((value -> result value) -> result value)
}.

(** [x._transform(transform)]: the attribute lookup raises when the target
    has no such attribute. *)
Definition call_transform (x : target) (closure : value -> result value)
    : result value :=
  match _transform x with
  | Some meth => meth closure
  | None => Err (AttributeError "object has no attribute '_transform'")
  end.

Context {T : Type} `{Transform T}.

(** The local closure [transform] of [apply]. *)
Definition transform (self : T) (kw : kwargs) : value -> result value :=
  fun x_ => _apply self x_ kw.

(** [Transform.apply]; [None] is Python's [None], returned when the [try]
    block ends without a [return]. *)
Definition apply (self : T) (x : target) (kw : kwargs) : result (option value) :=
  match call_transform x (transform self kw) with
  | Ok _ => Ok None
  | Err (AttributeError _) => rbind (_apply self (obj x) kw) (fun r => Ok (Some r))
  | Err e => Err e
  end.

End Protocol.

Arguments _apply {value kwargs T _} _ _ _.
Arguments jacobian {value kwargs T _} _ _.
Arguments compose {value kwargs T _} _ _.
Arguments inverse {value kwargs T _} _.
Arguments from_parameters {value kwargs T _} _.
Arguments parameters {value kwargs T _} _.
Arguments mk_target {value} _ _.
Arguments obj {value} _.
Arguments _transform {value} _.
Arguments call_transform {value} _ _.
Arguments transform {value kwargs T _} _ _ _.
Arguments apply {value kwargs T _} _ _ _.

End Transform.

(** ** Notions the properties are stated with *)

Section MeshNotions.

Context {scalar : Type}.

(** The mask retains point index [i]. *)
Definition selected (mask : list bool) (i : Z) : Prop :=
  0 <= i /\ mask !! Z.to_nat i = Some true.

(** A triangle survives when all three of its vertices are retained. *)
Definition survives (mask : list bool) (t : tri) : Prop :=
  match t with (a, b, c) => selected mask a /\ selected mask b /\ selected mask c end.

Definition vertex_of (i : Z) (t : tri) : Prop :=
  match t with (a, b, c) => i = a \/ i = b \/ i = c end.

Definition used_by_survivor (m : TriMesh scalar) (mask : list bool) (i : Z) : Prop :=
  exists t, t ∈ trilist m /\ survives mask t /\ vertex_of i t.

(** All three indices of a triangle lie in [0, n). *)
Definition tri_in_range (n : nat) (t : tri) : Prop :=
  match t with
  | (a, b, c) => (0 <= a < Z.of_nat n) /\ (0 <= b < Z.of_nat n) /\ (0 <= c < Z.of_nat n)
  end.

(** The field invariant: the leading dimension of every stored field is the
    number of its owners. *)
Definition fields_wf (m : TriMesh scalar) : Prop :=
  (forall name f, pointfields m !! name = Some f -> shape0 f = n_points m) /\
  (forall name f, trifields m !! name = Some f -> shape0 f = n_tris m).

(** The rows of [a] at the positions [idx], for a pure gather. *)
Definition gathered (idx : list Z) (a : ndarray scalar) (b : ndarray scalar) : Prop :=
  item_shape b = item_shape a /\
  Forall2 (fun i r => rows a !! Z.to_nat i = Some r) idx (rows b).

(** What adding fields leaves alone: class, points and triangles. *)
Definition same_geometry (s s' : TriMesh scalar) : Prop :=
  cls s' = cls s /\ points s' = points s /\ trilist s' = trilist s.

(** [astype] names a mesh class: ['self'] or a subclass of [TriMesh]. *)
Definition requested_class (self : TriMesh scalar) (astype : pyvalue)
    : option mesh_variant :=
  match astype with
  | PyStr s => if String.eqb s "self" then Some (cls self) else None
  | PyClass c => as_trimesh_class c
  end.

End MeshNotions.

(** ** The intermediate values of a run *)

(** The mask of retained vertices of each triangle, computed per triangle. *)
Definition keepb (kept : list Z) (t : tri) : bool :=
  match t with
  | (a, b, c) =>
      existsb (Z.eqb a) kept && existsb (Z.eqb b) kept && existsb (Z.eqb c) kept
  end.

(** The elements of [a] at the positions [idx]. *)
Definition gather {A} (idx : list Z) (a : list A) : list A :=
  omap (fun i => a !! Z.to_nat i) idx.

(** The intermediate values of a run of [trimesh_from_pointmask]. *)
Section Run.

Context {scalar : Type}.
Variables (m : TriMesh scalar) (mask : list bool).

Definition kept_by_mask : list Z := Np.compress mask (Np.arange (n_points m)).
Definition tris_mask : list bool := map (keepb kept_by_mask) (trilist m).
Definition kept_tris : list tri := List.filter (keepb kept_by_mask) (trilist m).
Definition kept_points : list Z := Np.unique (ravel kept_tris).

Definition slice_rows (h : list (list scalar) -> list (list scalar))
    (f : ndarray scalar) : ndarray scalar :=
  mk_ndarray (item_shape f) (h (rows f)).

Definition renumber (pi : list Z) (t : tri) : tri :=
  match t with
  | (a, b, c) => (Np.to_uint32 (pi !!! Z.to_nat a),
                  Np.to_uint32 (pi !!! Z.to_nat b),
                  Np.to_uint32 (pi !!! Z.to_nat c))
  end.

(** The mesh a successful run returns, for the class [c] and the index map
    [pi]. *)
Definition extracted (c : mesh_variant) (pi : list Z) : TriMesh scalar :=
  mk_TriMesh c
    (slice_rows (gather kept_points) (points m))
    (slice_rows (gather kept_points) <$> pointfields m)
    (map (renumber pi) kept_tris)
    (slice_rows (Np.compress tris_mask) <$> trifields m)
    (texture m).

(** [pi] sends every finally retained point to its rank among them. *)
Definition ranks (pi : list Z) : Prop :=
  length pi = n_points m /\
  forall (j : nat) (v : Z), kept_points !! j = Some v ->
                            pi !! Z.to_nat v = Some (Z.of_nat j).

End Run.

Section Finish.

Context {scalar : Type}.
Implicit Types (self : TriMesh scalar).

(** What [trimesh_from_pointmask] does once the new points and triangles
    are computed: lines 105 to 122. *)
Definition finish self (astype : pyvalue) (kept : list Z) (tmask : list bool)
    (new_points : ndarray scalar) (new_trilist : list tri)
    : M (list event) (TriMesh scalar) :=
  let* trimeshcls :=
    (if is_self astype then ret (cls self)
     else
       let* sub := lift (issubclass_TriMesh astype) in
       match sub with
       | Some c => ret c
       | None =>
           raise_named "Exception"
             (Exception ("The mesh type " ++ repr astype ++ " is not understood" ++
                         " (need to be an instance of TriMesh)"))
       end) in
  let* newtrimesh := instantiate trimeshcls new_points new_trilist in
  let* r1 := on_object newtrimesh
    (for_each (map_to_list (pointfields self)) (fun nf =>
       let* sliced := lift (nd_take nf.2 kept) in
       add_pointfield nf.1 sliced)) in
  let* r2 := on_object r1.1
    (for_each (map_to_list (trifields self)) (fun nf =>
       let* sliced := lift (nd_mask nf.2 tmask) in
       add_trifield nf.1 sliced)) in
  ret (set_texture (texture self) r2.1).

End Finish.

(** ** Concrete meshes and transforms *)

(** Four points, one triangle over the first three: the fourth point is
    used by no triangle. *)
Definition scenario_mesh : TriMesh Z :=
  TriMesh_init PlainTriMesh
    (mk_ndarray [3%nat] [[0; 0; 0]; [1; 0; 0]; [0; 1; 0]; [5; 5; 5]])
    [(0, 1, 2)].

(** The same mesh with a colour per point, an area per triangle and a
    texture. *)
Definition coloured_mesh : TriMesh Z :=
  mk_TriMesh FastTriMesh
    (mk_ndarray [3%nat] [[0; 0; 0]; [1; 0; 0]; [0; 1; 0]; [5; 5; 5]])
    {["color" := mk_ndarray [3%nat] [[255; 0; 0]; [0; 255; 0]; [0; 0; 255]; [9; 9; 9]]]}
    [(0, 1, 2)]
    {["area" := mk_ndarray [] [[50]]]}
    (Some 7%nat).

(** Three points, all vertices of the one triangle. *)
Definition closed_mesh : TriMesh Z :=
  mk_TriMesh PlainTriMesh
    (mk_ndarray [3%nat] [[0; 0; 0]; [1; 0; 0]; [0; 1; 0]])
    {["color" := mk_ndarray [3%nat] [[255; 0; 0]; [0; 255; 0]; [0; 0; 255]]]}
    [(0, 1, 2)]
    {["area" := mk_ndarray [] [[50]]]}
    (Some 7%nat).

(** Translation of a list of coordinates by a fixed offset. *)
#[export] Instance shift : Transform.Transform (list Z) unit Z := {|
  Transform._apply := fun t v _ => Ok (map (Z.add t) v);
  Transform.jacobian := fun _ v => Ok (map (fun _ => 1) v);
  Transform.compose := fun a b => Ok (a + b);
  Transform.inverse := fun a => Ok (- a);
  Transform.from_parameters := fun p =>
    match p with [t] => Ok t | _ => Err (Exception "one parameter expected") end;
  Transform.parameters := fun t => Ok [t]
|}.

(** A target that maps its own coordinates through the closure it is handed,
    and a bare coordinate list. *)
Definition cloud : Transform.target (list Z) :=
  Transform.mk_target [1; 2; 3] (Some (fun closure => closure [1; 2; 3])).
Definition bare : Transform.target (list Z) :=
  Transform.mk_target [1; 2; 3] None.

(** A target whose [_transform] reads an attribute it does not have. *)
Definition broken : Transform.target (list Z) :=
  Transform.mk_target [1; 2; 3]
    (Some (fun _ => Err (AttributeError "object has no attribute 'points'"))).

(** ** Viewing a mesh, and sequences of mutating calls *)

Section View.

Variable scalar : Type.

(** The truth value of a texture object where it stands as a condition;
    what it is, and whether evaluating it raises, is the texture's own
    business. *)
Variable truth : texture_ref -> result bool.

(** The viewer [view] constructs, with the arguments it is constructed
    from. *)
Inductive viewer : Type :=
  | TexturedTriMeshViewer3d (pts : ndarray scalar) (tl : list tri)
      (tex : texture_ref) (tcoords_per_tri tcoords_per_point : option (ndarray scalar))
  | TriMeshViewer3d (pts : ndarray scalar) (tl : list tri)
      (color_per_tri color_per_point : option (ndarray scalar)).

(** [textured and self.texture] as a condition: [None] is false. *)
Definition textured_and_texture (self : TriMesh scalar) (textured : bool)
    : result (option texture_ref) :=
  if textured then
    match texture self with
    | None => Ok None
    | Some t => rbind (truth t) (fun b => Ok (if b then Some t else None))
    end
  else Ok None.

(** [TriMesh.view], up to the call [viewer.view()], which belongs to the
    visualization package: the result is the viewer that call is made on. *)
Definition view (self : TriMesh scalar) (textured : bool) : result viewer :=
  rbind (textured_and_texture self textured) (fun cond =>
    match cond with
    | Some t =>
        Ok (TexturedTriMeshViewer3d (points self) (trilist self) t
              (trifields self !! "tcoords") (pointfields self !! "tcoords"))
    | None =>
        Ok (TriMeshViewer3d (points self) (trilist self)
              (trifields self !! "color") (pointfields self !! "color"))
    end).

(** A mutating call on a mesh. *)
Inductive call : Type :=
  | CallAddTrifield (name : string) (field : ndarray scalar)
  | CallAddPointfield (name : string) (field : ndarray scalar)
  | CallAttachTexture (tex : option texture_ref) (tcoords : ndarray scalar)
      (tcoords_trilist : option (list tri)).

Definition run_call (c : call) : M (TriMesh scalar) unit :=
  match c with
  | CallAddTrifield name field => add_trifield name field
  | CallAddPointfield name field => add_pointfield name field
  | CallAttachTexture tex tcoords tl => attach_texture tex tcoords tl
  end.

(** The mesh after a sequence of calls, made by a caller that carries on
    after an exception. *)
Fixpoint after_calls (cs : list call) (m : TriMesh scalar) : TriMesh scalar :=
  match cs with
  | [] => m
  | c :: cs' => after_calls cs' (run_call c m).1
  end.

End View.

Arguments TexturedTriMeshViewer3d {scalar} _ _ _ _ _.
Arguments TriMeshViewer3d {scalar} _ _ _ _.
Arguments textured_and_texture {scalar} _ _ _.
Arguments view {scalar} _ _ _.
Arguments CallAddTrifield {scalar} _ _.
Arguments CallAddPointfield {scalar} _ _.
Arguments CallAttachTexture {scalar} _ _ _.
Arguments run_call {scalar} _ _.
Arguments after_calls {scalar} _ _.

Section TextureNotions.

Context {scalar : Type}.

(** The row of a per-triangle coordinate field for the triangle [t] of a
    texture-private index: the coordinates at its three corners, one after
    the other. *)
Definition corner_rows (tcoords : ndarray scalar) (t : tri) (r : list scalar) : Prop :=
  match t with
  | (a, b, c) =>
      exists x y z,
        rows tcoords !! Z.to_nat a = Some x /\
        rows tcoords !! Z.to_nat b = Some y /\
        rows tcoords !! Z.to_nat c = Some z /\
        r = x ++ y ++ z
  end.

(** Some index of the triangle addresses no row of an axis of length [n],
    not even counted from the end. *)
Definition tri_unaddressable (n : nat) (t : tri) : Prop :=
  match t with
  | (a, b, c) =>
      ~ (- Z.of_nat n <= a < Z.of_nat n) \/
      ~ (- Z.of_nat n <= b < Z.of_nat n) \/
      ~ (- Z.of_nat n <= c < Z.of_nat n)
  end.

End TextureNotions.

(** [v'] is the rank of the old point index [v] in the list [kept] of the
    retained point indices: the position [v] has there. *)
Definition ranked (kept : list Z) (v v' : Z) : Prop :=
  0 <= v' /\ kept !! Z.to_nat v' = Some v.

(** The triangle [t'] is [t] with each corner replaced by its rank. *)
Definition renumbered_by (kept : list Z) (t t' : tri) : Prop :=
  match t, t' with
  | (a, b, c), (a', b', c') =>
      ranked kept a a' /\ ranked kept b b' /\ ranked kept c c'
  end.


(** The number of points a mask retains. *)
Definition count_true (mask : list bool) : nat :=
  length (List.filter (fun b => b) mask).

(** Texture coordinates per point, a private index into them, and a field
    with one row too many for the one triangle. *)
Definition uv_per_point : ndarray Z :=
  mk_ndarray [2%nat] [[0; 0]; [1; 0]; [0; 1]; [1; 1]].
Definition uv_per_tri : ndarray Z :=
  mk_ndarray [3%nat; 2%nat] [[0; 0; 1; 0; 0; 1]].
Definition uv_index : list tri := [(3, 1, 0)].
Definition two_areas : ndarray Z := mk_ndarray [] [[50]; [60]].
Definition one_area : ndarray Z := mk_ndarray [] [[50]].
Definition other_area : ndarray Z := mk_ndarray [] [[70]].

(** A sequence of calls, two of which raise. *)
Definition some_calls : list (call Z) :=
  [CallAddTrifield "area" two_areas;
   CallAttachTexture (Some 7%nat) uv_per_point None;
   CallAttachTexture (Some 8%nat) two_areas None;
   CallAddTrifield "area" one_area].

(** Every texture object counts as true. *)
Definition any_texture_true : texture_ref -> result bool := fun _ => Ok true.


(** * Facts about the array operations *)

Section NpFacts.

Context {A : Type}.
Implicit Types (a : list A) (idx : list Z) (mask : list bool).

Lemma norm_index_in_range (n : nat) (i : Z) :
  0 <= i < Z.of_nat n -> Np.norm_index n i = Ok (Z.to_nat i).
Proof.
  intros [H0 Hn]. unfold Np.norm_index.
  apply Z.leb_le in H0. apply Z.ltb_lt in Hn. by rewrite H0, Hn.
Qed.

Lemma getitem_in_range a (i : Z) (x : A) :
  0 <= i -> a !! Z.to_nat i = Some x -> Np.getitem a i = Ok x.
Proof.
  intros H0 Hx. unfold Np.getitem.
  rewrite norm_index_in_range; [simpl; by rewrite Hx|].
  apply lookup_lt_Some in Hx. lia.
Qed.

Lemma elem_of_compress mask a (x : A) :
  x ∈ Np.compress mask a <->
  exists k : nat, mask !! k = Some true /\ a !! k = Some x.
Proof.
  revert a. induction mask as [|b mask IH]; intros [|y a]; simpl.
  - split; [by intros ?%elem_of_nil | by intros (k & ? & ?)].
  - split; [by intros ?%elem_of_nil | by intros (k & ? & ?)].
  - split; [by intros ?%elem_of_nil | by intros (k & ? & ?)].
  - destruct b.
    + rewrite elem_of_cons, IH. split.
      * intros [-> | (k & ? & ?)]; [by exists 0%nat | by exists (S k)].
      * intros ([|k] & Hm & Ha); simpl in *; [left; congruence | right; eauto].
    + rewrite IH. split.
      * intros (k & ? & ?). by exists (S k).
      * intros ([|k] & Hm & Ha); simpl in *; [congruence | eauto].
Qed.

Lemma compress_map (f : A -> bool) a : Np.compress (map f a) a = List.filter f a.
Proof.
  induction a as [|x a IH]; simpl; [done|]. rewrite IH. by destruct (f x).
Qed.

Lemma compress_all_true a : Np.compress (replicate (length a) true) a = a.
Proof. induction a as [|x a IH]; simpl; [done | by rewrite IH]. Qed.

Lemma compress_all_false (n : nat) a : Np.compress (replicate n false) a = [].
Proof.
  revert a. induction n as [|n IH]; intros [|x a]; simpl; auto.
Qed.

Lemma getitem_mask_ok a mask :
  length mask = length a -> Np.getitem_mask a mask = Ok (Np.compress mask a).
Proof.
  intros Hlen. unfold Np.getitem_mask.
  by rewrite Hlen, Nat.eqb_refl.
Qed.

End NpFacts.

Lemma existsb_eqb_elem (x : Z) (ys : list Z) :
  existsb (Z.eqb x) ys = true <-> x ∈ ys.
Proof.
  rewrite existsb_exists. split.
  - intros (y & Hy & ->%Z.eqb_eq). by apply list_elem_of_In.
  - intros Hx. exists x. split; [by apply list_elem_of_In | apply Z.eqb_refl].
Qed.


Lemma all_axis1_in1d (tl : list tri) (kept : list Z) :
  all_axis1 (reshape3 (Np.in1d (ravel tl) kept)) = map (keepb kept) tl.
Proof.
  induction tl as [|[[a b] c] tl IH]; simpl; [done|].
  unfold all_axis1, Np.in1d in *. simpl. by rewrite IH.
Qed.

(** ** [np.unique] *)

Lemma elem_of_insert_sorted (x y : Z) (l : list Z) :
  y ∈ Np.insert_sorted x l <-> y = x \/ y ∈ l.
Proof.
  induction l as [|z l IH]; simpl.
  - rewrite list_elem_of_singleton, elem_of_nil. tauto.
  - destruct (Z.ltb_spec x z); [apply elem_of_cons|].
    destruct (Z.eqb_spec x z) as [->|]; [rewrite elem_of_cons; tauto|].
    rewrite !elem_of_cons, IH. tauto.
Qed.

Lemma insert_sorted_sorted (x : Z) (l : list Z) :
  StronglySorted Z.lt l -> StronglySorted Z.lt (Np.insert_sorted x l).
Proof.
  induction 1 as [|z l Hl IH Hz]; simpl.
  - repeat constructor.
  - destruct (Z.ltb_spec x z).
    + constructor; [by constructor|].
      constructor; [done|]. eapply Forall_impl; [exact Hz|]. simpl. lia.
    + destruct (Z.eqb_spec x z); [by constructor|].
      constructor; [done|].
      apply Forall_forall. intros y [-> | Hy]%elem_of_insert_sorted; [lia|].
      rewrite Forall_forall in Hz. by apply Hz.
Qed.

Lemma elem_of_unique (x : Z) (xs : list Z) : x ∈ Np.unique xs <-> x ∈ xs.
Proof.
  unfold Np.unique. induction xs as [|y xs IH]; simpl; [done|].
  rewrite elem_of_insert_sorted, elem_of_cons, IH. tauto.
Qed.

Lemma unique_sorted (xs : list Z) : StronglySorted Z.lt (Np.unique xs).
Proof.
  unfold Np.unique. induction xs as [|y xs IH]; simpl.
  - constructor.
  - by apply insert_sorted_sorted.
Qed.

Lemma sorted_lt_NoDup (l : list Z) : StronglySorted Z.lt l -> NoDup l.
Proof.
  induction 1 as [|z l Hl IH Hz]; constructor; [|done].
  intros Hin. rewrite Forall_forall in Hz. specialize (Hz _ Hin). lia.
Qed.

Lemma arange_sorted (n : nat) : StronglySorted Z.lt (Np.arange n).
Proof.
  unfold Np.arange. induction n as [|n IH].
  - simpl. constructor.
  - rewrite seqZ_S. apply StronglySorted_app_2.
    + intros x y Hx ->%list_elem_of_singleton.
      apply elem_of_seqZ in Hx. lia.
    + done.
    + repeat constructor.
Qed.

(** A strictly increasing list is determined by its elements. *)
Lemma sorted_lt_ext (l1 l2 : list Z) :
  StronglySorted Z.lt l1 -> StronglySorted Z.lt l2 ->
  (forall x, x ∈ l1 <-> x ∈ l2) -> l1 = l2.
Proof.
  intros H1 H2 Hext.
  apply (StronglySorted_unique_strong Z.lt); try done.
  - intros; lia.
  - apply NoDup_Permutation; auto using sorted_lt_NoDup.
Qed.

Lemma sorted_range_arange (n : nat) (l : list Z) :
  StronglySorted Z.lt l ->
  (forall x, x ∈ l <-> 0 <= x < Z.of_nat n) ->
  l = Np.arange n.
Proof.
  intros Hs Hl. apply sorted_lt_ext; [done | apply arange_sorted |].
  intros x. rewrite Hl. unfold Np.arange. rewrite elem_of_seqZ. lia.
Qed.

(** ** Index assignment *)

Lemma put_spec (a : list Z) (idx vals : list Z) :
  NoDup idx ->
  Forall (fun i => 0 <= i < Z.of_nat (length a)) idx ->
  length vals = length idx ->
  exists a', Np.put a idx vals = Ok a' /\
             length a' = length a /\
             (forall (j : nat) i v, idx !! j = Some i -> vals !! j = Some v ->
                          a' !! Z.to_nat i = Some v) /\
             (forall k : nat, Z.of_nat k ∉ idx -> a' !! k = a !! k).
Proof.
  intros Hnd. revert a vals.
  induction Hnd as [|i idx Hi Hnd IH]; intros a vals Hrange Hlen.
  - destruct vals; [|done]. exists a. repeat split; try done.
  - destruct vals as [|v vals]; [done|]. simpl in Hlen.
    apply Forall_cons in Hrange as [Hir Hrange].
    simpl. unfold Np.setitem. rewrite norm_index_in_range by done. simpl.
    destruct (IH (<[Z.to_nat i := v]> a) vals) as (a' & Hput & Hl & Hset & Hkeep).
    { by rewrite length_insert. }
    { lia. }
    exists a'. rewrite length_insert in Hl. split; [done|]. split; [done|]. split.
    + intros [|j] i' v' Hi' Hv'; simpl in *.
      * injection Hi' as <-. injection Hv' as <-.
        rewrite Hkeep by (rewrite Z2Nat.id by lia; done).
        apply list_lookup_insert_eq. lia.
      * eauto.
    + intros k Hk. apply not_elem_of_cons in Hk as [Hne Hk].
      rewrite Hkeep by done. apply list_lookup_insert_ne. lia.
Qed.

(** ** Pure counterparts of the index reads *)


Lemma take_gather {A} (a : list A) (idx : list Z) :
  Forall (fun i => 0 <= i < Z.of_nat (length a)) idx ->
  Np.take a idx = Ok (gather idx a) /\
  Forall2 (fun i r => a !! Z.to_nat i = Some r) idx (gather idx a).
Proof.
  induction 1 as [|i idx Hi _ [IH1 IH2]].
  - split; [reflexivity | constructor].
  - destruct (lookup_lt_is_Some_2 a (Z.to_nat i)) as [x Hx]; [lia|].
    unfold Np.take, gather in *. simpl.
    rewrite (getitem_in_range a i x) by (done || lia). simpl.
    rewrite IH1, Hx. simpl. split; [done | by constructor].
Qed.

Lemma gather_arange {A} (a : list A) : gather (Np.arange (length a)) a = a.
Proof.
  unfold gather, Np.arange.
  induction a as [|x a IH] using rev_ind; [done|].
  rewrite length_app. simpl length.
  replace (length a + 1)%nat with (S (length a)) by lia.
  rewrite seqZ_S, omap_app. simpl. rewrite Z.add_0_l, Nat2Z.id.
  rewrite lookup_app_r, Nat.sub_diag by lia. simpl. f_equal.
  rewrite <- IH at 2. apply list_omap_ext, Forall_Forall2_diag, Forall_forall.
  intros i Hi%elem_of_seqZ. apply lookup_app_l. lia.
Qed.

Lemma take_tris_total (pi : list Z) (tl : list tri) :
  Forall (tri_in_range (length pi)) tl ->
  take_tris pi tl =
    Ok (map (fun t => match t with
                      | (a, b, c) => (pi !!! Z.to_nat a, pi !!! Z.to_nat b, pi !!! Z.to_nat c)
                      end) tl).
Proof.
  induction 1 as [|[[a b] c] tl (Ha & Hb & Hc) _ IH]; [done|].
  unfold take_tris in *. simpl. rewrite IH.
  assert (Hget : forall v, 0 <= v < Z.of_nat (length pi) ->
                           Np.getitem pi v = Ok (pi !!! Z.to_nat v)).
  { intros v Hv. apply getitem_in_range; [lia|].
    apply list_lookup_lookup_total_lt. lia. }
  by rewrite !Hget.
Qed.

(** ** Filling a field table in a loop *)

Lemma foldl_insert_lookup {V W} (h : V -> W) (l : list (string * V))
    (init : gmap string W) (k : string) :
  NoDup l.*1 ->
  foldl (fun acc nf => <[nf.1 := h nf.2]> acc) init l !! k =
    match (list_to_map l : gmap string V) !! k with
    | Some f => Some (h f)
    | None => init !! k
    end.
Proof.
  revert init. induction l as [|[k1 f1] l IH]; intros init Hnd.
  - simpl. by rewrite lookup_empty.
  - simpl in *. apply NoDup_cons in Hnd as [Hk1 Hnd]. rewrite IH by done.
    destruct (decide (k = k1)) as [->|Hne].
    + rewrite (not_elem_of_list_to_map_1 l k1) by done.
      by rewrite !lookup_insert_eq.
    + by rewrite !lookup_insert_ne.
Qed.

Lemma foldl_insert_map_to_list {V W} (h : V -> W) (m : gmap string V) :
  foldl (fun acc nf => <[nf.1 := h nf.2]> acc) ∅ (map_to_list m) = h <$> m.
Proof.
  apply map_eq. intros k.
  rewrite foldl_insert_lookup by apply NoDup_fst_map_to_list.
  rewrite list_to_map_to_list, lookup_fmap, lookup_empty.
  by destruct (m !! k).
Qed.

Lemma fmap_id_on {V} (h : V -> V) (m : gmap string V) :
  (forall k f, m !! k = Some f -> h f = f) -> h <$> m = m.
Proof.
  intros Hid. apply map_eq. intros k. rewrite lookup_fmap.
  destruct (m !! k) as [f|] eqn:Hk; simpl; [|done]. by rewrite (Hid k f).
Qed.

(** * Facts about the mesh operations *)


Section MeshFacts.

Context {scalar : Type}.
Implicit Types (m self obj : TriMesh scalar) (f : ndarray scalar).

Lemma add_pointfield_ok name f obj :
  shape0 f = n_points obj ->
  add_pointfield name f obj = (set_pointfields (insert name f) obj, Ok tt).
Proof.
  intros Hf. unfold add_pointfield, bind, get. simpl.
  by rewrite Hf, Nat.eqb_refl.
Qed.

Lemma add_trifield_ok name f obj :
  shape0 f = n_tris obj ->
  add_trifield name f obj = (set_trifields (insert name f) obj, Ok tt).
Proof.
  intros Hf. unfold add_trifield, bind, get. simpl.
  by rewrite Hf, Nat.eqb_refl.
Qed.

Lemma add_trifield_mismatch name f obj :
  shape0 f <> n_tris obj ->
  add_trifield name f obj =
    (obj, Err (TriFieldError (field_size_message "tri" (shape0 f) (n_tris obj)))).
Proof.
  intros Hf. unfold add_trifield, bind, get. simpl.
  apply Nat.eqb_neq in Hf. by rewrite Hf.
Qed.

Lemma for_each_add_pointfield (l : list (string * ndarray scalar))
    (slice : ndarray scalar -> result (ndarray scalar))
    (h : ndarray scalar -> ndarray scalar) obj :
  (forall nf, nf ∈ l -> slice nf.2 = Ok (h nf.2) /\ shape0 (h nf.2) = n_points obj) ->
  for_each l (fun nf => let* sliced := lift (slice nf.2) in
                        add_pointfield nf.1 sliced) obj =
    (set_pointfields (fun pf => foldl (fun acc nf => <[nf.1 := h nf.2]> acc) pf l) obj,
     Ok tt).
Proof.
  revert obj. induction l as [|nf l IH]; intros obj Hl.
  - by destruct obj.
  - destruct (Hl nf) as [Hs Hn]; [by left|].
    simpl. unfold bind at 1. unfold bind at 1, lift. rewrite Hs.
    rewrite add_pointfield_ok by done.
    rewrite IH; [done|]. intros nf' Hin. apply Hl. by right.
Qed.

Lemma for_each_add_trifield (l : list (string * ndarray scalar))
    (slice : ndarray scalar -> result (ndarray scalar))
    (h : ndarray scalar -> ndarray scalar) obj :
  (forall nf, nf ∈ l -> slice nf.2 = Ok (h nf.2) /\ shape0 (h nf.2) = n_tris obj) ->
  for_each l (fun nf => let* sliced := lift (slice nf.2) in
                        add_trifield nf.1 sliced) obj =
    (set_trifields (fun tf => foldl (fun acc nf => <[nf.1 := h nf.2]> acc) tf l) obj,
     Ok tt).
Proof.
  revert obj. induction l as [|nf l IH]; intros obj Hl.
  - by destruct obj.
  - destruct (Hl nf) as [Hs Hn]; [by left|].
    simpl. unfold bind at 1. unfold bind at 1, lift. rewrite Hs.
    rewrite add_trifield_ok by done.
    rewrite IH; [done|]. intros nf' Hin. apply Hl. by right.
Qed.

End MeshFacts.

Lemma length_arange (n : nat) : length (Np.arange n) = n.
Proof. unfold Np.arange. rewrite length_seqZ. lia. Qed.

Section Retained.

Context {scalar : Type}.
Variables (m : TriMesh scalar) (mask : list bool).
Hypothesis mask_length : length mask = n_points m.

Lemma elem_of_kept_by_mask (x : Z) :
  x ∈ kept_by_mask m mask <-> selected mask x.
Proof.
  unfold kept_by_mask, selected, Np.arange. rewrite elem_of_compress. split.
  - intros (k & Hk & Hx). apply lookup_seqZ in Hx as [-> _].
    rewrite Z.add_0_l, Nat2Z.id. split; [lia | done].
  - intros [H0 Hx]. exists (Z.to_nat x). split; [done|].
    apply lookup_seqZ. apply lookup_lt_Some in Hx. lia.
Qed.

Lemma selected_in_range (x : Z) : selected mask x -> 0 <= x < Z.of_nat (n_points m).
Proof. intros [H0 Hx]. apply lookup_lt_Some in Hx. lia. Qed.

Lemma keepb_survives (t : tri) :
  keepb (kept_by_mask m mask) t = true <-> survives mask t.
Proof.
  destruct t as [[a b] c]. unfold keepb, survives.
  rewrite !andb_true_iff, !existsb_eqb_elem, !elem_of_kept_by_mask. tauto.
Qed.

Lemma elem_of_kept_tris (t : tri) :
  t ∈ kept_tris m mask <-> t ∈ trilist m /\ survives mask t.
Proof.
  unfold kept_tris. rewrite !list_elem_of_In, filter_In, keepb_survives.
  reflexivity.
Qed.

Lemma elem_of_ravel (x : Z) (tl : list tri) :
  x ∈ ravel tl <-> exists t, t ∈ tl /\ vertex_of x t.
Proof.
  unfold ravel. rewrite list_elem_of_In, in_flat_map. split.
  - intros ([[a b] c] & Ht & Hx). exists (a, b, c).
    split; [by apply list_elem_of_In|]. simpl in *. intuition.
  - intros ([[a b] c] & Ht & Hx). exists (a, b, c).
    split; [by apply list_elem_of_In|]. simpl in *. intuition.
Qed.

Lemma elem_of_kept_points (x : Z) :
  x ∈ kept_points m mask <-> used_by_survivor m mask x.
Proof.
  unfold kept_points, used_by_survivor. rewrite elem_of_unique, elem_of_ravel.
  split; intros (t & Ht & Hx); exists t.
  - apply elem_of_kept_tris in Ht. tauto.
  - split; [apply elem_of_kept_tris|]; tauto.
Qed.

Lemma survives_in_range (t : tri) : survives mask t -> tri_in_range (n_points m) t.
Proof.
  destruct t as [[a b] c]. intros (Ha & Hb & Hc).
  repeat split; by apply selected_in_range.
Qed.

Lemma kept_tris_in_range : Forall (tri_in_range (n_points m)) (kept_tris m mask).
Proof.
  apply Forall_forall. intros t [_ Ht]%elem_of_kept_tris.
  by apply survives_in_range.
Qed.

Lemma kept_points_in_range :
  Forall (fun i => 0 <= i < Z.of_nat (n_points m)) (kept_points m mask).
Proof.
  apply Forall_forall. intros x (t & _ & Ht & Hx)%elem_of_kept_points.
  apply survives_in_range in Ht. destruct t as [[a b] c].
  destruct Ht as (Ha & Hb & Hc). destruct Hx as [-> | [-> | ->]]; done.
Qed.

Lemma kept_points_sorted : StronglySorted Z.lt (kept_points m mask).
Proof. apply unique_sorted. Qed.

End Retained.

Section RunFacts.

Context {scalar : Type}.
Implicit Types (self : TriMesh scalar).


Lemma bind_lift_Ok {S A B} (a : A) (k : A -> M S B) : bind (lift (Ok a)) k = k a.
Proof. reflexivity. Qed.

Lemma tfp_prefix self (mask : list bool) (astype : pyvalue) :
  length mask = n_points self ->
  exists pi, ranks self mask pi /\
    trimesh_from_pointmask self mask astype =
      finish self astype (kept_points self mask) (tris_mask self mask)
        (slice_rows (gather (kept_points self mask)) (points self))
        (map (renumber pi) (kept_tris self mask)).
Proof.
  intros Hlen.
  destruct (put_spec (Np.zeros (n_points self)) (kept_points self mask)
              (Np.arange (length (kept_points self mask))))
    as (pi & Hput & Hlenpi & Hset & _).
  { apply sorted_lt_NoDup, kept_points_sorted. }
  { unfold Np.zeros. rewrite length_replicate. by apply kept_points_in_range. }
  { apply length_arange. }
  unfold Np.zeros in Hlenpi. rewrite length_replicate in Hlenpi.
  exists pi. split.
  - split; [done|]. intros j v Hj. apply (Hset j v (Z.of_nat j)); [done|].
    unfold Np.arange. apply lookup_seqZ. apply lookup_lt_Some in Hj. lia.
  - unfold trimesh_from_pointmask. cbv zeta.
    rewrite getitem_mask_ok by (by rewrite length_arange).
    rewrite bind_lift_Ok. cbv beta.
    rewrite all_axis1_in1d.
    rewrite getitem_mask_ok by (by rewrite length_map).
    rewrite bind_lift_Ok. cbv beta.
    rewrite compress_map.
    fold (kept_by_mask self mask). fold (kept_tris self mask).
    fold (kept_points self mask). fold (tris_mask self mask).
    unfold nd_take at 1.
    destruct (take_gather (rows (points self)) (kept_points self mask)) as [-> _].
    { by apply kept_points_in_range. }
    simpl rbind. rewrite bind_lift_Ok. cbv beta.
    rewrite Hput, bind_lift_Ok. cbv beta.
    rewrite take_tris_total
      by (rewrite Hlenpi; by apply kept_tris_in_range).
    rewrite bind_lift_Ok. cbv beta.
    rewrite map_map. unfold finish, slice_rows.
    erewrite List.map_ext; [reflexivity|].
    by intros [[a b] c].
Qed.

Lemma length_gather {A} (a : list A) (idx : list Z) :
  Forall (fun i => 0 <= i < Z.of_nat (length a)) idx ->
  length (gather idx a) = length idx.
Proof.
  intros Hr. destruct (take_gather a idx Hr) as [_ Hall].
  symmetry. by eapply Forall2_length.
Qed.

Lemma length_compress_same {A B} (mask : list bool) (a : list A) (b : list B) :
  length a = length b ->
  length (Np.compress mask a) = length (Np.compress mask b).
Proof.
  revert a b. induction mask as [|x mask IH]; intros [|y a] [|z b] Hlen;
    simpl in *; try done.
  injection Hlen as Hlen. destruct x; simpl; auto.
Qed.

Lemma finish_ok self (mask : list bool) (astype : pyvalue) (c : mesh_variant)
    (pi : list Z) (log : list event) :
  length mask = n_points self ->
  fields_wf self ->
  requested_class self astype = Some c ->
  finish self astype (kept_points self mask) (tris_mask self mask)
    (slice_rows (gather (kept_points self mask)) (points self))
    (map (renumber pi) (kept_tris self mask)) log =
  (log ++ [Instantiate c], Ok (extracted self mask c pi)).
Proof.
  intros Hlen [Hpf Htf] Hcls. unfold finish.
  assert (Hres :
    (if is_self astype then ret (cls self)
     else
       let* sub := lift (issubclass_TriMesh astype) in
       match sub with
       | Some c => ret c
       | None =>
           raise_named "Exception"
             (Exception ("The mesh type " ++ repr astype ++ " is not understood" ++
                         " (need to be an instance of TriMesh)"))
       end) = (ret c : M (list event) mesh_variant)).
  { destruct astype as [s|k]; simpl in *.
    - destruct (String.eqb s "self"); [congruence | done].
    - by rewrite bind_lift_Ok, Hcls. }
  rewrite Hres. clear Hres.
  unfold bind at 1, ret at 1. unfold bind at 1, instantiate.
  unfold bind at 1, modify, ret at 1.
  unfold bind at 1, on_object at 1.
  rewrite (for_each_add_pointfield _ (fun f => nd_take f (kept_points self mask))
             (slice_rows (gather (kept_points self mask)))).
  2:{ intros [name f] Hin%elem_of_map_to_list. simpl.
      specialize (Hpf name f Hin). unfold shape0 in Hpf.
      assert (Hr : Forall (fun i => 0 <= i < Z.of_nat (length (rows f)))
                          (kept_points self mask)).
      { rewrite Hpf. by apply kept_points_in_range. }
      split.
      - unfold nd_take. by destruct (take_gather (rows f) _ Hr) as [-> _].
      - unfold n_points, shape0, TriMesh_init, slice_rows. simpl.
        rewrite !length_gather; [done | by apply kept_points_in_range | done]. }
  unfold bind at 1, on_object at 1.
  rewrite (for_each_add_trifield _ (fun f => nd_mask f (tris_mask self mask))
             (slice_rows (Np.compress (tris_mask self mask)))).
  2:{ intros [name f] Hin%elem_of_map_to_list. simpl.
      specialize (Htf name f Hin). unfold shape0, n_tris in Htf.
      split.
      - unfold nd_mask. rewrite getitem_mask_ok; [done|].
        unfold tris_mask. by rewrite length_map.
      - unfold n_tris, shape0, slice_rows. simpl. rewrite length_map.
        rewrite (length_compress_same _ _ (trilist self)) by done.
        unfold tris_mask, kept_tris. by rewrite compress_map. }
  unfold ret, extracted, set_texture, set_trifields, set_pointfields, TriMesh_init.
  simpl. by rewrite !foldl_insert_map_to_list.
Qed.

Lemma for_each_same_geometry {A} (l : list A)
    (body : A -> M (TriMesh scalar) unit) (obj obj' : TriMesh scalar)
    (r : result unit) :
  (forall x s s' r', body x s = (s', r') -> same_geometry s s') ->
  for_each l body obj = (obj', r) -> same_geometry obj obj'.
Proof.
  intros Hbody. revert obj. induction l as [|x l IH]; intros obj Hrun.
  - injection Hrun as <- _. by repeat split.
  - simpl in Hrun. unfold bind in Hrun.
    destruct (body x obj) as [s1 [[]|e]] eqn:Hx.
    + destruct (Hbody _ _ _ _ Hx) as (H1 & H2 & H3).
      destruct (IH _ Hrun) as (H4 & H5 & H6).
      repeat split; congruence.
    + injection Hrun as <- _. by apply (Hbody _ _ _ _ Hx).
Qed.

Lemma add_pointfield_same_geometry name (f : ndarray scalar) s s' r :
  add_pointfield name f s = (s', r) -> same_geometry s s'.
Proof.
  unfold add_pointfield, bind, get, raise, modify. simpl.
  destruct (Nat.eqb _ _); simpl; intros [= <- _]; by repeat split.
Qed.

Lemma add_trifield_same_geometry name (f : ndarray scalar) s s' r :
  add_trifield name f s = (s', r) -> same_geometry s s'.
Proof.
  unfold add_trifield, bind, get, raise_named, raise, modify. simpl.
  destruct (Nat.eqb _ _); simpl; intros [= <- _]; by repeat split.
Qed.

(** Whenever the second half returns a mesh, it has the points and the
    triangles it was given. *)
Lemma finish_geometry self (astype : pyvalue) (kept : list Z) (tmask : list bool)
    (new_points : ndarray scalar) (new_trilist : list tri)
    (log log' : list event) (new : TriMesh scalar) :
  finish self astype kept tmask new_points new_trilist log = (log', Ok new) ->
  points new = new_points /\ trilist new = new_trilist.
Proof.
  unfold finish. unfold bind at 1.
  match goal with |- context [match ?c log with _ => _ end] =>
    destruct (c log) as [log1 [c0|e]] eqn:Hc end; [|done].
  unfold bind at 1, instantiate. unfold bind at 1, modify, ret at 1.
  unfold bind at 1, on_object at 1.
  match goal with |- context [for_each ?l ?b ?o] =>
    destruct (for_each l b o) as [o1 [[]|e]] eqn:H1 end; [|done].
  unfold bind at 1, on_object at 1. simpl fst.
  match goal with |- context [for_each ?l ?b ?o] =>
    destruct (for_each l b o) as [o2 [[]|e]] eqn:H2 end; [|done].
  unfold ret. simpl. intros [= _ <-]. simpl.
  apply for_each_same_geometry in H1 as (_ & Hp1 & Ht1).
  2:{ intros [name f] s s' r'. unfold bind, lift. simpl.
      destruct (nd_take f kept); [apply add_pointfield_same_geometry|].
      intros [= <- _]. by repeat split. }
  apply for_each_same_geometry in H2 as (_ & Hp2 & Ht2).
  2:{ intros [name f] s s' r'. unfold bind, lift. simpl.
      destruct (nd_mask f tmask); [apply add_trifield_same_geometry|].
      intros [= <- _]. by repeat split. }
  simpl in Hp1, Ht1. split; congruence.
Qed.


Lemma finish_rejects_str self (s : string) (kept : list Z) (tmask : list bool)
    (new_points : ndarray scalar) (new_trilist : list tri) (log : list event) :
  String.eqb s "self" = false ->
  finish self (PyStr s) kept tmask new_points new_trilist log =
  (log, Err (TypeError "issubclass() arg 1 must be a class")).
Proof.
  intros Hs. unfold finish. simpl is_self. rewrite Hs. reflexivity.
Qed.

End RunFacts.

(** * Sub-mesh extraction *)

Section Extraction.

Context {scalar : Type}.
Implicit Types (self new : TriMesh scalar).

(** With a mask of the right length, a well-formed receiver and a usable
    [astype], the call returns the mesh [extracted], after one constructor
    call. *)
Lemma tfp_returns self (mask : list bool) (astype : pyvalue) (c : mesh_variant)
    (log : list event) :
  length mask = n_points self ->
  fields_wf self ->
  requested_class self astype = Some c ->
  exists pi, ranks self mask pi /\
    trimesh_from_pointmask self mask astype log =
      (log ++ [Instantiate c], Ok (extracted self mask c pi)).
Proof.
  intros Hlen Hwf Hcls.
  destruct (tfp_prefix self mask astype Hlen) as (pi & Hpi & ->).
  exists pi. split; [done|]. by apply finish_ok.
Qed.

(** Whenever the call returns, the mesh has the gathered points and the
    renumbered surviving triangles. *)
Lemma tfp_geometry self (mask : list bool) (astype : pyvalue) :
  length mask = n_points self ->
  exists pi, ranks self mask pi /\
    forall log log' new,
      trimesh_from_pointmask self mask astype log = (log', Ok new) ->
      points new = slice_rows (gather (kept_points self mask)) (points self) /\
      trilist new = map (renumber pi) (kept_tris self mask).
Proof.
  intros Hlen.
  destruct (tfp_prefix self mask astype Hlen) as (pi & Hpi & ->).
  exists pi. split; [done|]. intros log log' new. apply finish_geometry.
Qed.

(** C2: for a retain-mask over the points of a mesh there is a list of
    point indices, ascending and without repetition, whose elements are
    exactly the indices that are a vertex of at least one surviving
    triangle; a retained point all of whose triangles were dropped is not in
    it.  Whenever the call returns, the points of the returned mesh are the
    original points at these indices, in that order; and the call does
    return for a mesh that satisfies the field invariant and a usable
    [astype]. *)
Theorem C2_points_of_surviving_triangles self (mask : list bool)
    (astype : pyvalue) (log : list event) :
  length mask = n_points self ->
  exists kept,
    StronglySorted Z.lt kept /\
    (forall i, i ∈ kept <-> used_by_survivor self mask i) /\
    (forall i, selected mask i ->
               (forall t, t ∈ trilist self -> vertex_of i t -> ~ survives mask t) ->
               i ∉ kept) /\
    (forall new log',
       trimesh_from_pointmask self mask astype log = (log', Ok new) ->
       gathered kept (points self) (points new) /\ n_points new = length kept) /\
    (forall c, fields_wf self -> requested_class self astype = Some c ->
       exists new,
         trimesh_from_pointmask self mask astype log =
           (log ++ [Instantiate c], Ok new)).
Proof.
  intros Hlen. exists (kept_points self mask).
  split; [apply kept_points_sorted|].
  split; [by apply elem_of_kept_points|].
  split; [|split].
  - intros i _ Hdropped (t & Ht & Hs & Hv)%elem_of_kept_points; [|done].
    by apply (Hdropped t).
  - intros new log' Hrun.
    destruct (tfp_geometry self mask astype Hlen) as (pi & _ & Hgeo).
    destruct (Hgeo _ _ _ Hrun) as [Hpts _].
    assert (Hr := kept_points_in_range self mask Hlen).
    unfold n_points, shape0. rewrite Hpts. split.
    + split; [done|]. simpl. by apply take_gather.
    + unfold slice_rows. simpl. by apply length_gather.
  - intros c Hwf Hcls.
    destruct (tfp_returns self mask astype c log Hlen Hwf Hcls) as (pi & _ & Hrun).
    eauto.
Qed.

(** C3: for a retain-mask of length N, whenever the call returns, all
    triangles of the returned mesh have their three indices in [0, N'), N'
    being the number of points of the returned mesh; and the call does
    return for a mesh that satisfies the field invariant and a usable
    [astype]. *)
Theorem C3_triangle_indices_in_range self (mask : list bool)
    (astype : pyvalue) (log : list event) :
  length mask = n_points self ->
  (forall new log',
     trimesh_from_pointmask self mask astype log = (log', Ok new) ->
     Forall (tri_in_range (n_points new)) (trilist new)) /\
  (forall c, fields_wf self -> requested_class self astype = Some c ->
     exists new,
       trimesh_from_pointmask self mask astype log =
         (log ++ [Instantiate c], Ok new)).
Proof.
  intros Hlen. split.
  - intros new log' Hrun.
    destruct (tfp_geometry self mask astype Hlen) as (pi & [Hpilen Hpi] & Hgeo).
    destruct (Hgeo _ _ _ Hrun) as [Hpts ->].
    assert (Hn : n_points new = length (kept_points self mask)).
    { unfold n_points, shape0. rewrite Hpts. unfold slice_rows. simpl.
      apply length_gather. by apply kept_points_in_range. }
    rewrite Hn. apply Forall_forall. intros t' Ht'.
    apply list_elem_of_fmap in Ht' as (t & -> & Ht).
    assert (Hv : forall v, vertex_of v t ->
               0 <= Np.to_uint32 (pi !!! Z.to_nat v)
                 < Z.of_nat (length (kept_points self mask))).
    { intros v Hv.
      assert (Hin : v ∈ kept_points self mask).
      { unfold kept_points. apply elem_of_unique, elem_of_ravel. eauto. }
      apply list_elem_of_lookup in Hin as [j Hj].
      rewrite (list_lookup_total_correct _ _ _ (Hpi j v Hj)).
      apply lookup_lt_Some in Hj. unfold Np.to_uint32.
      pose proof (Z.mod_pos_bound (Z.of_nat j) (2 ^ 32) ltac:(lia)).
      pose proof (Z.mod_le (Z.of_nat j) (2 ^ 32) ltac:(lia) ltac:(lia)). lia. }
    destruct t as [[a b] c']. simpl.
    repeat split; apply Hv; simpl; auto.
  - intros c Hwf Hcls.
    destruct (tfp_returns self mask astype c log Hlen Hwf Hcls) as (pi & _ & Hrun).
    eauto.
Qed.

Lemma filter_none {A} (f : A -> bool) (l : list A) :
  (forall x, x ∈ l -> f x = false) -> List.filter f l = [].
Proof.
  induction l as [|x l IH]; intros Hf; simpl; [done|].
  rewrite (Hf x) by (by left). apply IH. intros y Hy. apply Hf. by right.
Qed.

Lemma filter_all {A} (f : A -> bool) (l : list A) :
  (forall x, x ∈ l -> f x = true) -> List.filter f l = l.
Proof.
  induction l as [|x l IH]; intros Hf; simpl; [done|].
  rewrite (Hf x) by (by left). f_equal. apply IH. intros y Hy. apply Hf. by right.
Qed.

Lemma map_constant {A B} (f : A -> B) (b : B) (l : list A) :
  (forall x, x ∈ l -> f x = b) -> map f l = replicate (length l) b.
Proof.
  induction l as [|x l IH]; intros Hf; simpl; [done|].
  rewrite (Hf x) by (by left). f_equal. apply IH. intros y Hy. apply Hf. by right.
Qed.

Lemma kept_tris_none self (mask : list bool) :
  length mask = n_points self ->
  (forall t, t ∈ trilist self -> ~ survives mask t) ->
  kept_tris self mask = [].
Proof.
  intros Hlen Hnone. apply filter_none. intros t Ht.
  apply not_true_is_false. intros Hk%keepb_survives; [|done]. by apply (Hnone t).
Qed.

(** C8: when the mask retains no point, or no triangle has its three
    vertices retained, the call returns, and the mesh it returns has no
    point and no triangle; every field of the source is carried over under
    its name with no row left. *)
Theorem C8_empty_extraction self (mask : list bool) (astype : pyvalue)
    (c : mesh_variant) (log : list event) :
  length mask = n_points self ->
  fields_wf self ->
  requested_class self astype = Some c ->
  (forall i, ~ selected mask i) \/
  (forall t, t ∈ trilist self -> ~ survives mask t) ->
  exists new log',
    trimesh_from_pointmask self mask astype log = (log', Ok new) /\
    n_points new = 0%nat /\ rows (points new) = [] /\
    n_tris new = 0%nat /\ trilist new = [] /\
    dom (pointfields new) = dom (pointfields self) /\
    dom (trifields new) = dom (trifields self) /\
    (forall name f, pointfields new !! name = Some f -> rows f = []) /\
    (forall name f, trifields new !! name = Some f -> rows f = []).
Proof.
  intros Hlen Hwf Hcls Hempty.
  assert (Hnone : forall t, t ∈ trilist self -> ~ survives mask t).
  { destruct Hempty as [Hsel | Hnone]; [|done].
    intros [[a b] c'] _ Hs. destruct Hs as (Ha & _). by apply (Hsel a). }
  destruct (tfp_returns self mask astype c log Hlen Hwf Hcls) as (pi & _ & Hrun).
  exists (extracted self mask c pi), (log ++ [Instantiate c]).
  split; [done|].
  assert (Hkp : kept_points self mask = []).
  { unfold kept_points. by rewrite kept_tris_none. }
  assert (Hmask : forall {B} (a : list B), Np.compress (tris_mask self mask) a = []).
  { intros B a. unfold tris_mask.
    rewrite (map_constant _ false); [apply compress_all_false|].
    intros t Ht. apply not_true_is_false. intros Hk%keepb_survives; [|done].
    by apply (Hnone t). }
  unfold n_points, n_tris, shape0, extracted. simpl.
  rewrite Hkp, kept_tris_none by done. simpl.
  repeat split; try done.
  - apply dom_fmap_L.
  - apply dom_fmap_L.
  - intros name f. rewrite lookup_fmap.
    destruct (pointfields self !! name); simpl; [|done].
    by intros [= <-].
  - intros name f. rewrite lookup_fmap.
    destruct (trifields self !! name); simpl; [|done].
    intros [= <-]. simpl. apply Hmask.
Qed.

Lemma selected_all self (i : Z) :
  selected (replicate (n_points self) true) i <-> 0 <= i < Z.of_nat (n_points self).
Proof.
  unfold selected. rewrite lookup_replicate. split; [lia|].
  intros [H0 Hn]. repeat split; lia.
Qed.

Lemma survives_all self (t : tri) :
  survives (replicate (n_points self) true) t <-> tri_in_range (n_points self) t.
Proof.
  destruct t as [[a b] c]. unfold survives, tri_in_range.
  by rewrite !selected_all.
Qed.

(** C1, as the code has it: for a mesh whose stored fields have the leading
    dimension of their owners, whose triangles index existing points, all of
    whose points are a vertex of some triangle, and that has at most 2^32
    points, extraction with the mask retaining every point and the default
    [astype] returns a mesh equal to the source: class, points, triangle
    list, point and triangle fields, texture. *)
Theorem C1_full_mask_returns_equal_mesh self (log : list event) :
  fields_wf self ->
  Forall (tri_in_range (n_points self)) (trilist self) ->
  (forall i, 0 <= i < Z.of_nat (n_points self) ->
             exists t, t ∈ trilist self /\ vertex_of i t) ->
  Z.of_nat (n_points self) <= 2 ^ 32 ->
  trimesh_from_pointmask self (replicate (n_points self) true) (PyStr "self") log =
    (log ++ [Instantiate (cls self)], Ok self).
Proof.
  intros Hwf Hrange Hused Hsize.
  set (mask := replicate (n_points self) true).
  assert (Hlen : length mask = n_points self) by apply length_replicate.
  destruct (tfp_returns self mask (PyStr "self") (cls self) log Hlen Hwf eq_refl)
    as (pi & [Hpilen Hpi] & ->).
  f_equal. f_equal.
  assert (Hkt : kept_tris self mask = trilist self).
  { apply filter_all. intros t Ht. apply keepb_survives; [done|].
    apply survives_all. rewrite Forall_forall in Hrange. by apply Hrange. }
  assert (Hkp : kept_points self mask = Np.arange (n_points self)).
  { apply sorted_range_arange; [apply kept_points_sorted|].
    intros x. rewrite elem_of_kept_points by done. split.
    - intros (t & Ht & Hs%survives_all & Hv).
      destruct t as [[a b] c]. destruct Hs as (Ha & Hb & Hc).
      destruct Hv as [-> | [-> | ->]]; done.
    - intros Hx. destruct (Hused x Hx) as (t & Ht & Hv).
      exists t. repeat split; try done. apply survives_all.
      rewrite Forall_forall in Hrange. by apply Hrange. }
  assert (Htm : tris_mask self mask = replicate (n_tris self) true).
  { unfold tris_mask, n_tris. apply map_constant. intros t Ht.
    apply keepb_survives; [done|]. apply survives_all.
    rewrite Forall_forall in Hrange. by apply Hrange. }
  assert (Hpts : forall f : ndarray scalar, shape0 f = n_points self ->
                           slice_rows (gather (kept_points self mask)) f = f).
  { intros [sh rs] Hf. unfold slice_rows, shape0 in *. simpl in *.
    by rewrite Hkp, <- Hf, gather_arange. }
  assert (Htris : forall f : ndarray scalar, shape0 f = n_tris self ->
                            slice_rows (Np.compress (tris_mask self mask)) f = f).
  { intros [sh rs] Hf. unfold slice_rows, shape0 in *. simpl in *.
    by rewrite Htm, <- Hf, compress_all_true. }
  assert (Hpi' : forall v, 0 <= v < Z.of_nat (n_points self) ->
                           Np.to_uint32 (pi !!! Z.to_nat v) = v).
  { intros v Hv.
    assert (Hj : kept_points self mask !! Z.to_nat v = Some v).
    { rewrite Hkp. unfold Np.arange. apply lookup_seqZ. lia. }
    rewrite (list_lookup_total_correct _ _ _ (Hpi _ _ Hj)).
    unfold Np.to_uint32. rewrite Z2Nat.id by lia. apply Z.mod_small. lia. }
  destruct Hwf as [Hpf Htf].
  unfold extracted. rewrite Hkt.
  rewrite (fmap_id_on _ (pointfields self)) by (intros k f Hk; eapply Hpts, Hpf, Hk).
  rewrite (fmap_id_on _ (trifields self)) by (intros k f Hk; eapply Htris, Htf, Hk).
  rewrite Hpts by done.
  replace (map (renumber pi) (trilist self)) with (trilist self); [by destruct self|].
  rewrite <- (map_id (trilist self)) at 1. apply map_ext_Forall.
  eapply Forall_impl; [exact Hrange|].
  intros [[a b] c] (Ha & Hb & Hc). simpl. by rewrite !Hpi'.
Qed.

End Extraction.

(** * Field tables and texture attachment *)


Section Fields.

Context {scalar : Type}.
Implicit Types (self : TriMesh scalar) (f field tcoords : ndarray scalar).

Lemma texture_add_trifield name f self :
  texture (add_trifield name f self).1 = texture self.
Proof.
  unfold add_trifield, bind, get. simpl.
  by destruct (Nat.eqb (shape0 f) (n_tris self)).
Qed.

Lemma texture_add_pointfield name f self :
  texture (add_pointfield name f self).1 = texture self.
Proof.
  unfold add_pointfield, bind, get. simpl.
  by destruct (Nat.eqb (shape0 f) (n_points self)).
Qed.

(** C4: an array whose leading dimension differs from the number T of
    triangles makes [add_trifield] raise [TriFieldError] with a message that
    gives the supplied size and then the required one, and leaves the mesh as
    it was; an array of leading dimension T is stored under the name, the
    other entries and attributes staying as they were. *)
Theorem C4_add_trifield_checks_leading_dimension name field self :
  (shape0 field <> n_tris self ->
   add_trifield name field self =
     (self, Err (TriFieldError
        ("Trying to add a field with " ++ repr_nat (shape0 field) ++
         " values (need one field value per tri => " ++
         repr_nat (n_tris self) ++ " values required")))) /\
  (shape0 field = n_tris self ->
   exists self',
     add_trifield name field self = (self', Ok tt) /\
     trifields self' !! name = Some field /\
     (forall other, other <> name -> trifields self' !! other = trifields self !! other) /\
     cls self' = cls self /\ points self' = points self /\
     pointfields self' = pointfields self /\ trilist self' = trilist self /\
     texture self' = texture self).
Proof.
  split.
  - intros Hne. by rewrite add_trifield_mismatch.
  - intros Heq. exists (set_trifields (insert name field) self).
    rewrite add_trifield_ok by done. simpl.
    repeat split; try done.
    + apply lookup_insert_eq.
    + intros other Hother. by apply lookup_insert_ne.
Qed.

(** Without a private triangle index and with coordinates of a shape that
    is neither (N, 2) nor (T, 3, 2), [attach_texture] reaches the [raise]
    of line 46, where the name [TextureError] is not bound. *)
Lemma attach_texture_unrecognised_shape tex tcoords self :
  shape tcoords <> [n_points self; 2%nat] ->
  shape tcoords <> [n_tris self; 3%nat; 2%nat] ->
  attach_texture tex tcoords None self =
    (set_texture tex self, Err (NameError "TextureError")).
Proof.
  intros H1 H2. unfold attach_texture, bind, modify, get, shape_eqb. simpl.
  rewrite !bool_decide_eq_false_2 by done. reflexivity.
Qed.

(** C6: after any call of [attach_texture], whether it returns or raises,
    the attribute [texture] of the mesh is the texture that was supplied. *)
Theorem C6_texture_stored_on_every_branch tex tcoords
    (tcoords_trilist : option (list tri)) self :
  texture (attach_texture tex tcoords tcoords_trilist self).1 = tex.
Proof.
  unfold attach_texture, bind, modify, get, lift. simpl.
  destruct tcoords_trilist as [tl|].
  - destruct (nd_take_tris tcoords tl) as [g|e]; [|done].
    by rewrite texture_add_trifield.
  - destruct (shape_eqb _ _); [by rewrite texture_add_pointfield|].
    destruct (shape_eqb _ _); [by rewrite texture_add_trifield|].
    reflexivity.
Qed.


(** A string other than ['self'] does not reach that [raise]: [issubclass]
    itself raises, again before any mesh is constructed. *)
Lemma tfp_rejects_other_string self (mask : list bool) (s : string)
    (log : list event) :
  length mask = n_points self ->
  String.eqb s "self" = false ->
  trimesh_from_pointmask self mask (PyStr s) log =
    (log, Err (TypeError "issubclass() arg 1 must be a class")).
Proof.
  intros Hlen Hs.
  destruct (tfp_prefix self mask (PyStr s) Hlen) as (pi & _ & ->).
  by apply finish_rejects_str.
Qed.

End Fields.

(** * The transform protocol *)

Section Dispatch.

Context {value kwargs T : Type} `{Tr : Transform.Transform value kwargs T}.
Implicit Types (self : T) (x : Transform.target value) (kw : kwargs).

(** C9: the closure of [apply] maps an array through [_apply] with the
    options of the call; a target that has [_transform] is handed that
    closure, and what [apply] does next depends on the outcome of the method
    alone; a target without it is passed to [_apply] directly and the mapped
    array is returned. *)
Theorem C9_apply_dispatches_on_capability self x kw :
  (forall a, Transform.transform self kw a = Transform._apply self a kw) /\
  (forall meth, Transform._transform x = Some meth ->
     Transform.apply self x kw =
       match meth (Transform.transform self kw) with
       | Ok _ => Ok None
       | Err (AttributeError _) =>
           rbind (Transform._apply self (Transform.obj x) kw)
                 (fun r => Ok (Some r))
       | Err e => Err e
       end) /\
  (Transform._transform x = None ->
     (forall r, Transform._apply self (Transform.obj x) kw = Ok r ->
                Transform.apply self x kw = Ok (Some r)) /\
     (forall e, Transform._apply self (Transform.obj x) kw = Err e ->
                Transform.apply self x kw = Err e)).
Proof.
  split; [done|]. split.
  - intros meth Hm. unfold Transform.apply, Transform.call_transform.
    by rewrite Hm.
  - intros Hm. unfold Transform.apply, Transform.call_transform. rewrite Hm.
    split; intros r ->; reflexivity.
Qed.

(** C10, as the code has it: when the target has [_transform] and the call
    of the method returns, whatever it returns, [apply] returns [None]; a
    target without the method gets the mapped array back. *)
Theorem C10_apply_returns_None_for_transformable self x kw :
  (forall meth v,
     Transform._transform x = Some meth ->
     meth (Transform.transform self kw) = Ok v ->
     Transform.apply self x kw = Ok None) /\
  (Transform._transform x = None ->
   forall r, Transform._apply self (Transform.obj x) kw = Ok r ->
             Transform.apply self x kw = Ok (Some r)).
Proof.
  unfold Transform.apply, Transform.call_transform. split.
  - intros meth v Hm Hv. by rewrite Hm, Hv.
  - intros Hm r Hr. by rewrite Hm, Hr.
Qed.

(** An [AttributeError] raised inside the target's own [_transform] is
    caught by the same [except] clause: the target is then passed to
    [_apply] as if it had no such method. *)
Lemma apply_falls_back_on_inner_AttributeError self x kw meth msg :
  Transform._transform x = Some meth ->
  meth (Transform.transform self kw) = Err (AttributeError msg) ->
  Transform.apply self x kw =
    rbind (Transform._apply self (Transform.obj x) kw) (fun r => Ok (Some r)).
Proof.
  intros Hm Hv. unfold Transform.apply, Transform.call_transform.
  by rewrite Hm, Hv.
Qed.

End Dispatch.

(** * The properties on concrete inputs *)

Lemma coloured_mesh_wf : fields_wf coloured_mesh.
Proof.
  split; intros name f Hf; simpl in Hf;
    apply lookup_singleton_Some in Hf as [_ <-]; reflexivity.
Defined.

Lemma closed_mesh_wf : fields_wf closed_mesh.
Proof.
  split; intros name f Hf; simpl in Hf;
    apply lookup_singleton_Some in Hf as [_ <-]; reflexivity.
Defined.

Lemma C2_witness :
  exists kept new,
    trimesh_from_pointmask coloured_mesh [true; true; true; true] (PyStr "self") []
      = ([Instantiate FastTriMesh], Ok new) /\
    StronglySorted Z.lt kept /\
    (forall i, i ∈ kept <-> used_by_survivor coloured_mesh [true; true; true; true] i) /\
    gathered kept (points coloured_mesh) (points new) /\
    n_points new = length kept.
Proof.
  destruct (C2_points_of_surviving_triangles coloured_mesh [true; true; true; true]
              (PyStr "self") [] eq_refl)
    as (kept & Hsorted & Hkept & _ & Hpart & Htotal).
  destruct (Htotal FastTriMesh coloured_mesh_wf eq_refl) as (new & Hrun).
  exists kept, new. split; [exact Hrun|]. split; [exact Hsorted|].
  split; [exact Hkept|]. exact (Hpart new _ Hrun).
Defined.

Lemma C3_witness :
  exists new,
    trimesh_from_pointmask coloured_mesh [true; true; true; false]
      (PyClass ClsTriMesh) [] = ([Instantiate PlainTriMesh], Ok new) /\
    Forall (tri_in_range (n_points new)) (trilist new).
Proof.
  destruct (C3_triangle_indices_in_range coloured_mesh [true; true; true; false]
              (PyClass ClsTriMesh) [] eq_refl) as [Hpart Htotal].
  destruct (Htotal PlainTriMesh coloured_mesh_wf eq_refl) as (new & Hrun).
  exists new. split; [exact Hrun|]. exact (Hpart new _ Hrun).
Defined.

Lemma C1_witness :
  trimesh_from_pointmask closed_mesh (replicate (n_points closed_mesh) true)
    (PyStr "self") [] =
    ([] ++ [Instantiate (cls closed_mesh)], Ok closed_mesh).
Proof.
  apply (C1_full_mask_returns_equal_mesh closed_mesh []).
  - exact closed_mesh_wf.
  - change (n_points closed_mesh) with 3%nat.
    constructor; [simpl; lia | constructor].
  - intros i Hi. exists (0, 1, 2). split.
    + simpl. left.
    + change (Z.of_nat (n_points closed_mesh)) with 3 in Hi. simpl. lia.
  - vm_compute. discriminate.
Defined.

(** The mesh of four points with one triangle, extracted with the mask that
    retains every point, comes back with three points: the point no
    triangle uses is dropped. *)
Lemma C1_counterexample :
  exists new,
    trimesh_from_pointmask scenario_mesh (replicate (n_points scenario_mesh) true)
      (PyStr "self") [] = ([Instantiate PlainTriMesh], Ok new) /\
    n_points scenario_mesh = 4%nat /\
    n_points new = 3%nat /\
    points new <> points scenario_mesh.
Proof.
  eexists. split; [vm_compute; reflexivity|].
  split; [reflexivity|]. split; [reflexivity|]. discriminate.
Qed.

Lemma C4_witness :
  add_trifield "area" (mk_ndarray [] [[50]; [60]]) scenario_mesh =
    (scenario_mesh,
     Err (TriFieldError
       ("Trying to add a field with " ++ repr_nat 2 ++
        " values (need one field value per tri => " ++
        repr_nat 1 ++ " values required"))) /\
  exists self',
    add_trifield "area" (mk_ndarray [] [[50]]) scenario_mesh = (self', Ok tt) /\
    trifields self' !! "area" = Some (mk_ndarray [] [[50]]) /\
    (forall other, other <> "area" ->
                   trifields self' !! other = trifields scenario_mesh !! other) /\
    cls self' = cls scenario_mesh /\ points self' = points scenario_mesh /\
    pointfields self' = pointfields scenario_mesh /\
    trilist self' = trilist scenario_mesh /\
    texture self' = texture scenario_mesh.
Proof.
  split.
  - apply (proj1 (C4_add_trifield_checks_leading_dimension "area"
                    (mk_ndarray [] [[50]; [60]]) scenario_mesh)).
    vm_compute. lia.
  - apply (proj2 (C4_add_trifield_checks_leading_dimension "area"
                    (mk_ndarray [] [[50]]) scenario_mesh)).
    reflexivity.
Defined.

(** C5: on the four-point mesh, coordinates of shape (5,) and no private
    triangle index make [attach_texture] raise [NameError]: the class
    [TextureError] named at the [raise] is bound nowhere in the module.  The
    texture is stored and both field tables stay empty. *)
Theorem C5_unrecognised_shape_raises_NameError :
  attach_texture (Some 7%nat) (mk_ndarray [] [[1]; [2]; [3]; [4]; [5]]) None
    scenario_mesh =
    (set_texture (Some 7%nat) scenario_mesh, Err (NameError "TextureError")) /\
  load_global "TextureError" = Err (NameError "TextureError") /\
  pointfields (set_texture (Some 7%nat) scenario_mesh) = ∅ /\
  trifields (set_texture (Some 7%nat) scenario_mesh) = ∅.
Proof.
  split; [|by split].
  by apply attach_texture_unrecognised_shape.
Qed.



Lemma C8_witness :
  exists new log',
    trimesh_from_pointmask coloured_mesh [true; true; false; false] (PyStr "self") []
      = (log', Ok new) /\
    n_points new = 0%nat /\ rows (points new) = [] /\
    n_tris new = 0%nat /\ trilist new = [] /\
    dom (pointfields new) = dom (pointfields coloured_mesh) /\
    dom (trifields new) = dom (trifields coloured_mesh) /\
    (forall name f, pointfields new !! name = Some f -> rows f = []) /\
    (forall name f, trifields new !! name = Some f -> rows f = []).
Proof.
  apply (C8_empty_extraction coloured_mesh [true; true; false; false]
           (PyStr "self") FastTriMesh []).
  - reflexivity.
  - exact coloured_mesh_wf.
  - reflexivity.
  - right. intros t Ht. simpl in Ht. apply list_elem_of_singleton in Ht as ->.
    intros (_ & _ & _ & Hc). simpl in Hc. discriminate.
Defined.

Lemma C9_witness :
  Transform.apply 10 cloud tt = Ok None /\
  Transform.transform 10 tt [1; 2; 3] = Ok [11; 12; 13] /\
  Transform.apply 10 bare tt = Ok (Some [11; 12; 13]).
Proof.
  destruct (C9_apply_dispatches_on_capability 10 cloud tt) as (Hc & Hm & _).
  destruct (C9_apply_dispatches_on_capability 10 bare tt) as (_ & _ & Hb).
  split; [|split].
  - rewrite (Hm _ eq_refl). reflexivity.
  - rewrite Hc. reflexivity.
  - apply (proj1 (Hb eq_refl)). reflexivity.
Defined.

Lemma C10_witness :
  Transform.apply 10 cloud tt = Ok None /\
  Transform.apply 10 bare tt = Ok (Some [11; 12; 13]).
Proof.
  destruct (C10_apply_returns_None_for_transformable 10 cloud tt) as [Hret _].
  destruct (C10_apply_returns_None_for_transformable 10 bare tt) as [_ Hraw].
  split.
  - apply (Hret (fun closure => closure [1; 2; 3]) [11; 12; 13]); reflexivity.
  - apply Hraw; reflexivity.
Defined.

(** The target [broken] has a [_transform] method, which raises
    [AttributeError]; [apply] returns the mapped coordinates, not [None]. *)
Lemma C10_counterexample :
  is_Some (Transform._transform broken) /\
  Transform.apply 10 broken tt = Ok (Some [11; 12; 13]) /\
  Transform.apply 10 broken tt <> Ok None.
Proof.
  split; [by eexists|]. split; [reflexivity | discriminate].
Qed.

(** The specification's scenarios, and the fallback on an inner
    [AttributeError], run on the model. *)
Example scenario_A :
  trimesh_from_pointmask scenario_mesh [true; true; true; false] (PyStr "self") [] =
    ([Instantiate PlainTriMesh],
     Ok (TriMesh_init PlainTriMesh
           (mk_ndarray [3%nat] [[0; 0; 0]; [1; 0; 0]; [0; 1; 0]]) [(0, 1, 2)])).
Proof. vm_compute. reflexivity. Qed.

Example scenario_B :
  trimesh_from_pointmask scenario_mesh [true; true; false; false] (PyStr "self") [] =
    ([Instantiate PlainTriMesh],
     Ok (TriMesh_init PlainTriMesh (mk_ndarray [3%nat] []) [])).
Proof. vm_compute. reflexivity. Qed.

Example scenario_C_per_vertex :
  attach_texture (Some 7%nat) (mk_ndarray [2%nat] [[0; 0]; [1; 0]; [0; 1]; [1; 1]])
    None scenario_mesh =
    (set_pointfields
       (insert "tcoords" (mk_ndarray [2%nat] [[0; 0]; [1; 0]; [0; 1]; [1; 1]]))
       (set_texture (Some 7%nat) scenario_mesh), Ok tt).
Proof. reflexivity. Qed.

Example scenario_C_indexed :
  attach_texture (Some 7%nat) (mk_ndarray [2%nat] [[0; 0]; [1; 0]; [0; 1]; [1; 1]])
    (Some [(3, 1, 0)]) scenario_mesh =
    (set_trifields
       (insert "tcoords" (mk_ndarray [3%nat; 2%nat] [[1; 1; 1; 0; 0; 0]]))
       (set_texture (Some 7%nat) scenario_mesh), Ok tt).
Proof. reflexivity. Qed.

Example broken_target_falls_back :
  Transform.apply 10 broken tt = Ok (Some [11; 12; 13]).
Proof. reflexivity. Qed.

Example other_string_rejected :
  trimesh_from_pointmask scenario_mesh [true; true; true; false] (PyStr "fast") [] =
    ([], Err (TypeError "issubclass() arg 1 must be a class")).
Proof. reflexivity. Qed.

(** * Further properties of the mesh operations *)

Section Invariant.

Context {scalar : Type}.
Implicit Types (self s new : TriMesh scalar) (f field : ndarray scalar).

Lemma add_trifield_wf name f s : fields_wf s -> fields_wf (add_trifield name f s).1.
Proof.
  intros [Hp Ht]. unfold add_trifield, bind, get. simpl.
  destruct (Nat.eqb (shape0 f) (n_tris s)) eqn:Hf; simpl; [|done].
  apply Nat.eqb_eq in Hf. split; [done|]. simpl.
  intros k g [[_ <-] | [_ Hk]]%lookup_insert_Some; [done | by eapply Ht].
Qed.

Lemma add_pointfield_wf name f s : fields_wf s -> fields_wf (add_pointfield name f s).1.
Proof.
  intros [Hp Ht]. unfold add_pointfield, bind, get. simpl.
  destruct (Nat.eqb (shape0 f) (n_points s)) eqn:Hf; simpl; [|done].
  apply Nat.eqb_eq in Hf. split; [|done]. simpl.
  intros k g [[_ <-] | [_ Hk]]%lookup_insert_Some; [done | by eapply Hp].
Qed.

Lemma for_each_invariant {A} (P : TriMesh scalar -> Prop) (l : list A)
    (body : A -> M (TriMesh scalar) unit) (obj : TriMesh scalar) :
  (forall x s, P s -> P (body x s).1) ->
  P obj -> P (for_each l body obj).1.
Proof.
  intros Hbody. revert obj. induction l as [|x l IH]; intros obj Hobj; [done|].
  simpl. unfold bind. specialize (Hbody x obj Hobj).
  destruct (body x obj) as [s1 [[]|e]]; simpl in *; [by apply IH | done].
Qed.

Lemma fields_wf_set_texture (t : option texture_ref) s :
  fields_wf s -> fields_wf (set_texture t s).
Proof. by intros [Hp Ht]. Qed.

(** Whenever the second half returns, one constructor call has been made,
    of the requested class; the mesh has that class, the texture of the
    receiver, and fields of the right leading dimension. *)
Lemma finish_returns self (astype : pyvalue) (kept : list Z) (tmask : list bool)
    (new_points : ndarray scalar) (new_trilist : list tri)
    (log log' : list event) new :
  finish self astype kept tmask new_points new_trilist log = (log', Ok new) ->
  requested_class self astype = Some (cls new) /\
  log' = log ++ [Instantiate (cls new)] /\
  texture new = texture self /\
  fields_wf new.
Proof.
  unfold finish. unfold bind at 1.
  match goal with |- context [match ?c log with _ => _ end] =>
    destruct (c log) as [log1 [c0|e]] eqn:Hc end; [|done].
  assert (Hreq : log1 = log /\ requested_class self astype = Some c0).
  { destruct astype as [s0|k]; simpl in Hc |- *.
    - destruct (String.eqb s0 "self"); [by injection Hc as <- <- | done].
    - unfold bind, lift, issubclass_TriMesh in Hc.
      destruct (as_trimesh_class k); [by injection Hc as <- <- | done]. }
  destruct Hreq as [-> Hreq]. clear Hc.
  unfold bind at 1, instantiate. unfold bind at 1, modify, ret at 1.
  unfold bind at 1, on_object at 1.
  match goal with |- context [for_each ?l ?b ?o] =>
    pose proof (for_each_invariant fields_wf l b o) as W1;
    pose proof (for_each_same_geometry l b o) as G1;
    destruct (for_each l b o) as [o1 [[]|e]] end; [|done].
  unfold bind at 1, on_object at 1. simpl fst.
  match goal with |- context [for_each ?l ?b ?o] =>
    pose proof (for_each_invariant fields_wf l b o) as W2;
    pose proof (for_each_same_geometry l b o) as G2;
    destruct (for_each l b o) as [o2 [[]|e]] end; [|done].
  unfold ret. simpl. intros [= <- <-]. simpl in *.
  assert (Hg1 : same_geometry (TriMesh_init c0 new_points new_trilist) o1).
  { eapply G1; [|done]. intros [name f] s s' r'. unfold bind, lift. simpl.
    destruct (nd_take f kept); [apply add_pointfield_same_geometry|].
    intros [= <- _]. by repeat split. }
  assert (Hg2 : same_geometry o1 o2).
  { eapply G2; [|done]. intros [name f] s s' r'. unfold bind, lift. simpl.
    destruct (nd_mask f tmask); [apply add_trifield_same_geometry|].
    intros [= <- _]. by repeat split. }
  destruct Hg1 as (Hc1 & _ & _). destruct Hg2 as (Hc2 & _ & _).
  assert (Hcls : cls o2 = c0) by (rewrite Hc2, Hc1; done).
  assert (Hw1 : fields_wf o1).
  { apply W1.
    - intros [name f] s Hs. unfold bind, lift. simpl.
      destruct (nd_take f kept); [by apply add_pointfield_wf | done].
    - split; intros name f Hl; simpl in Hl; by rewrite lookup_empty in Hl. }
  assert (Hw2 : fields_wf o2).
  { apply W2; [|done]. intros [name f] s Hs. unfold bind, lift. simpl.
    destruct (nd_mask f tmask); [by apply add_trifield_wf | done]. }
  rewrite Hcls. split; [done|]. split; [done|]. split; [done|].
  by apply fields_wf_set_texture.
Qed.

Lemma filter_sublist {A} (g : A -> bool) (l : list A) : sublist (List.filter g l) l.
Proof.
  induction l as [|x l IH]; simpl; [constructor|].
  destruct (g x); by constructor.
Qed.

Lemma length_compress_count {A} (mask : list bool) (a : list A) :
  length a = length mask -> length (Np.compress mask a) = count_true mask.
Proof.
  revert a. unfold count_true.
  induction mask as [|b mask IH]; intros [|x a] Hlen; simpl in *; try done.
  injection Hlen as Hlen. destruct b; simpl; auto.
Qed.

Lemma length_kept_points_le self (mask : list bool) :
  length mask = n_points self ->
  (length (kept_points self mask) <= length (kept_by_mask self mask))%nat.
Proof.
  intros Hlen. apply submseteq_length, NoDup_submseteq.
  - apply sorted_lt_NoDup, kept_points_sorted.
  - intros x (t & _ & Hs & Hv)%elem_of_kept_points; [|done].
    apply elem_of_kept_by_mask; [done|].
    destruct t as [[a b] c]. destruct Hs as (Ha & Hb & Hc).
    destruct Hv as [-> | [-> | ->]]; done.
Qed.

Lemma length_kept_by_mask self (mask : list bool) :
  length mask = n_points self ->
  length (kept_by_mask self mask) = count_true mask.
Proof.
  intros Hlen. apply length_compress_count. by rewrite length_arange.
Qed.

Lemma count_true_le (mask : list bool) : (count_true mask <= length mask)%nat.
Proof.
  unfold count_true. induction mask as [|[] mask IH]; simpl; lia.
Qed.

(** The new index of a vertex of a surviving triangle is its rank among the
    finally retained points. *)
Lemma renumbered_vertex self (mask : list bool) (pi : list Z) (t : tri) (v : Z) :
  length mask = n_points self ->
  Z.of_nat (n_points self) <= 2 ^ 32 ->
  ranks self mask pi ->
  t ∈ kept_tris self mask -> vertex_of v t ->
  exists j : nat,
    kept_points self mask !! j = Some v /\
    Np.to_uint32 (pi !!! Z.to_nat v) = Z.of_nat j.
Proof.
  intros Hlen Hsize [_ Hpi] Ht Hv.
  assert (Hin : v ∈ kept_points self mask).
  { unfold kept_points. apply elem_of_unique, elem_of_ravel. eauto. }
  apply list_elem_of_lookup in Hin as [j Hj]. exists j. split; [done|].
  rewrite (list_lookup_total_correct _ _ _ (Hpi j v Hj)).
  apply lookup_lt_Some in Hj.
  pose proof (length_kept_points_le self mask Hlen) as H1.
  pose proof (length_kept_by_mask self mask Hlen) as H2.
  pose proof (count_true_le mask) as H3.
  unfold Np.to_uint32. apply Z.mod_small. lia.
Qed.

(** X1: whenever extraction returns, every field of the returned mesh has
    the leading dimension of its owners: fields only enter the new mesh
    through the checked [add_pointfield] and [add_trifield]. *)
Theorem extraction_result_keeps_field_invariant self (mask : list bool)
    (astype : pyvalue) (log log' : list event) new :
  length mask = n_points self ->
  trimesh_from_pointmask self mask astype log = (log', Ok new) ->
  fields_wf new.
Proof.
  intros Hlen Hrun.
  destruct (tfp_prefix self mask astype Hlen) as (pi & _ & Heq).
  rewrite Heq in Hrun. by apply finish_returns in Hrun as (_ & _ & _ & Hwf).
Qed.

(** X2: whenever extraction returns, exactly one mesh has been constructed,
    of the class [astype] asks for (the class of the receiver for ['self']),
    and the returned mesh has that class and the texture object of the
    receiver. *)
Theorem extraction_constructs_requested_class_once self (mask : list bool)
    (astype : pyvalue) (log log' : list event) new :
  length mask = n_points self ->
  trimesh_from_pointmask self mask astype log = (log', Ok new) ->
  requested_class self astype = Some (cls new) /\
  log' = log ++ [Instantiate (cls new)] /\
  texture new = texture self.
Proof.
  intros Hlen Hrun.
  destruct (tfp_prefix self mask astype Hlen) as (pi & _ & Heq).
  rewrite Heq in Hrun. apply finish_returns in Hrun. tauto.
Qed.

Lemma tris_mask_lookup self (mask : list bool) (k : nat) :
  length mask = n_points self ->
  tris_mask self mask !! k = Some true <->
  exists t, trilist self !! k = Some t /\ survives mask t.
Proof.
  intros Hlen. unfold tris_mask. rewrite list_lookup_fmap. split.
  - destruct (trilist self !! k) as [t|]; simpl; [|done].
    intros [= Hk]. exists t. split; [done|]. by apply keepb_survives in Hk.
  - intros (t & -> & Hs). simpl. f_equal. by apply keepb_survives.
Qed.

(** X3: whenever extraction of a mesh of at most 2^32 points returns, the
    triangles of the returned mesh are the surviving triangles, each of
    them, in their original order, with every corner replaced by its rank
    in the ascending list of the retained point indices, the list the new
    points are gathered at: a corner of a new triangle is the position, in
    the new point array, of the point the old corner indexed. *)
Theorem extraction_keeps_triangle_corners self (mask : list bool)
    (astype : pyvalue) (log log' : list event) new :
  length mask = n_points self ->
  Z.of_nat (n_points self) <= 2 ^ 32 ->
  trimesh_from_pointmask self mask astype log = (log', Ok new) ->
  exists kept tmask,
    StronglySorted Z.lt kept /\
    (forall i, i ∈ kept <-> used_by_survivor self mask i) /\
    gathered kept (points self) (points new) /\
    length tmask = n_tris self /\
    (forall k, tmask !! k = Some true <->
               exists t, trilist self !! k = Some t /\ survives mask t) /\
    Forall2 (renumbered_by kept) (Np.compress tmask (trilist self)) (trilist new).
Proof.
  intros Hlen Hsize Hrun.
  destruct (tfp_geometry self mask astype Hlen) as (pi & Hranks & Hgeo).
  destruct (Hgeo _ _ _ Hrun) as [Hpts Htl].
  assert (Hr := kept_points_in_range self mask Hlen).
  exists (kept_points self mask), (tris_mask self mask).
  split; [apply kept_points_sorted|].
  split; [by apply elem_of_kept_points|].
  split.
  { rewrite Hpts. split; [done|]. simpl. by apply take_gather. }
  split; [unfold tris_mask, n_tris; by rewrite length_map|].
  split; [intros k; by apply tris_mask_lookup|].
  unfold tris_mask. rewrite compress_map. fold (kept_tris self mask).
  rewrite Htl. apply Forall2_fmap_r, Forall_Forall2_diag, Forall_forall.
  intros t Ht.
  assert (Hv : forall v, vertex_of v t ->
             ranked (kept_points self mask) v (Np.to_uint32 (pi !!! Z.to_nat v))).
  { intros v Hv.
    destruct (renumbered_vertex self mask pi t v Hlen Hsize Hranks Ht Hv)
      as (j & Hj & ->).
    split; [lia|]. by rewrite Nat2Z.id. }
  destruct t as [[a b] c]. simpl. repeat split; apply Hv; simpl; auto.
Qed.

(** X4: extraction of a mesh that satisfies the field invariant carries
    every field over under its name, sliced in step with its owners: a
    point field is gathered at the same indices as the points, a triangle
    field keeps the rows of the surviving triangles, selected by the same
    mask as the triangles themselves; the trailing shape of a field is
    kept. *)
Theorem extraction_slices_fields_in_step self (mask : list bool)
    (astype : pyvalue) (c : mesh_variant) (log : list event) :
  length mask = n_points self ->
  fields_wf self ->
  requested_class self astype = Some c ->
  exists new kept tmask,
    trimesh_from_pointmask self mask astype log = (log ++ [Instantiate c], Ok new) /\
    gathered kept (points self) (points new) /\
    length tmask = n_tris self /\
    (forall k, tmask !! k = Some true <->
               exists t, trilist self !! k = Some t /\ survives mask t) /\
    n_tris new = length (Np.compress tmask (trilist self)) /\
    dom (pointfields new) = dom (pointfields self) /\
    dom (trifields new) = dom (trifields self) /\
    (forall name f, pointfields self !! name = Some f ->
       exists f', pointfields new !! name = Some f' /\ gathered kept f f') /\
    (forall name f, trifields self !! name = Some f ->
       exists f', trifields new !! name = Some f' /\
                  item_shape f' = item_shape f /\
                  rows f' = Np.compress tmask (rows f)).
Proof.
  intros Hlen Hwf Hcls.
  destruct (tfp_returns self mask astype c log Hlen Hwf Hcls) as (pi & _ & Hrun).
  exists (extracted self mask c pi), (kept_points self mask), (tris_mask self mask).
  assert (Hr := kept_points_in_range self mask Hlen).
  split; [done|]. split.
  { split; [done|]. simpl. by apply take_gather. }
  split; [unfold tris_mask, n_tris; by rewrite length_map|].
  split; [intros k; by apply tris_mask_lookup|].
  split.
  { unfold n_tris. simpl. rewrite length_map. unfold tris_mask, kept_tris.
    by rewrite compress_map. }
  split; [apply dom_fmap_L|]. split; [apply dom_fmap_L|].
  destruct Hwf as [Hpf Htf]. split.
  - intros name f Hf. exists (slice_rows (gather (kept_points self mask)) f).
    simpl. rewrite lookup_fmap, Hf. split; [done|].
    split; [done|]. simpl. apply take_gather.
    specialize (Hpf name f Hf). unfold shape0 in Hpf. by rewrite Hpf.
  - intros name f Hf. exists (slice_rows (Np.compress (tris_mask self mask)) f).
    simpl. by rewrite lookup_fmap, Hf.
Qed.

(** X5: whenever extraction returns, the returned mesh has no more points
    than the mask retains and no more triangles than the source. *)
Theorem extraction_never_grows self (mask : list bool) (astype : pyvalue)
    (log log' : list event) new :
  length mask = n_points self ->
  trimesh_from_pointmask self mask astype log = (log', Ok new) ->
  (n_points new <= count_true mask)%nat /\
  (count_true mask <= n_points self)%nat /\
  (n_tris new <= n_tris self)%nat.
Proof.
  intros Hlen Hrun.
  destruct (tfp_geometry self mask astype Hlen) as (pi & _ & Hgeo).
  destruct (Hgeo _ _ _ Hrun) as [Hpts Htl].
  unfold n_points at 1, n_tris at 1, shape0. rewrite Hpts, Htl.
  unfold slice_rows. simpl.
  rewrite length_gather by (by apply kept_points_in_range).
  rewrite length_map. split; [|split].
  - rewrite <- (length_kept_by_mask self mask Hlen).
    by apply length_kept_points_le.
  - rewrite <- Hlen. apply count_true_le.
  - apply sublist_length, filter_sublist.
Qed.

(** With every point retained, every triangle in range and every point a
    vertex, the run returns the receiver with the requested class. *)
Lemma full_mask_run self (astype : pyvalue) (c : mesh_variant) (log : list event) :
  fields_wf self ->
  Forall (tri_in_range (n_points self)) (trilist self) ->
  (forall i, 0 <= i < Z.of_nat (n_points self) ->
             exists t, t ∈ trilist self /\ vertex_of i t) ->
  Z.of_nat (n_points self) <= 2 ^ 32 ->
  requested_class self astype = Some c ->
  trimesh_from_pointmask self (replicate (n_points self) true) astype log =
    (log ++ [Instantiate c],
     Ok (mk_TriMesh c (points self) (pointfields self) (trilist self)
           (trifields self) (texture self))).
Proof.
  intros Hwf Hrange Hused Hsize Hcls.
  set (mask := replicate (n_points self) true).
  assert (Hlen : length mask = n_points self) by apply length_replicate.
  destruct (tfp_returns self mask astype c log Hlen Hwf Hcls)
    as (pi & Hranks & ->).
  f_equal. f_equal.
  assert (Hall : forall t, t ∈ trilist self -> survives mask t).
  { intros t Ht. apply survives_all. rewrite Forall_forall in Hrange. auto. }
  assert (Hkt : kept_tris self mask = trilist self).
  { apply filter_all. intros t Ht. apply keepb_survives; auto. }
  assert (Hkp : kept_points self mask = Np.arange (n_points self)).
  { apply sorted_range_arange; [apply kept_points_sorted|].
    intros x. rewrite elem_of_kept_points by done. split.
    - intros (t & Ht & Hs%survives_all & Hv).
      destruct t as [[a b] c']. destruct Hs as (Ha & Hb & Hc).
      destruct Hv as [-> | [-> | ->]]; done.
    - intros Hx. destruct (Hused x Hx) as (t & Ht & Hv). exists t. auto. }
  assert (Htm : tris_mask self mask = replicate (n_tris self) true).
  { unfold tris_mask, n_tris. apply map_constant. intros t Ht.
    apply keepb_survives; auto. }
  assert (Hpts : forall f : ndarray scalar, shape0 f = n_points self ->
                   slice_rows (gather (kept_points self mask)) f = f).
  { intros [sh rs] Hf. unfold slice_rows, shape0 in *. simpl in *.
    by rewrite Hkp, <- Hf, gather_arange. }
  assert (Htris : forall f : ndarray scalar, shape0 f = n_tris self ->
                    slice_rows (Np.compress (tris_mask self mask)) f = f).
  { intros [sh rs] Hf. unfold slice_rows, shape0 in *. simpl in *.
    by rewrite Htm, <- Hf, compress_all_true. }
  destruct Hwf as [Hpf Htf]. unfold extracted.
  rewrite (fmap_id_on _ (pointfields self)) by (intros k f Hk; eapply Hpts, Hpf, Hk).
  rewrite (fmap_id_on _ (trifields self)) by (intros k f Hk; eapply Htris, Htf, Hk).
  rewrite Hpts by done. f_equal.
  transitivity (map id (kept_tris self mask)); [|by rewrite map_id].
  apply map_ext_Forall, Forall_forall. intros t Ht.
  assert (Hv : forall v, vertex_of v t -> Np.to_uint32 (pi !!! Z.to_nat v) = v).
  { intros v Hv.
    destruct (renumbered_vertex self mask pi t v Hlen Hsize Hranks Ht Hv)
      as (j & Hj & ->).
    rewrite Hkp in Hj. unfold Np.arange in Hj. apply lookup_seqZ in Hj. lia. }
  destruct t as [[a b] c']. simpl. rewrite !Hv; simpl; auto.
Qed.

(** X6: for a mesh that satisfies the field invariant, whose triangles
    index existing points, all of whose points are a vertex of some triangle
    and that has at most 2^32 points, extraction with the mask retaining
    every point and a subclass of [TriMesh] as [astype] converts the mesh to
    that class: points, triangles, fields and texture are those of the
    source. *)
Theorem full_mask_extraction_converts_class self (k : pyclass) (c : mesh_variant)
    (log : list event) :
  fields_wf self ->
  Forall (tri_in_range (n_points self)) (trilist self) ->
  (forall i, 0 <= i < Z.of_nat (n_points self) ->
             exists t, t ∈ trilist self /\ vertex_of i t) ->
  Z.of_nat (n_points self) <= 2 ^ 32 ->
  as_trimesh_class k = Some c ->
  exists new,
    trimesh_from_pointmask self (replicate (n_points self) true) (PyClass k) log =
      (log ++ [Instantiate c], Ok new) /\
    cls new = c /\ points new = points self /\ trilist new = trilist self /\
    pointfields new = pointfields self /\ trifields new = trifields self /\
    texture new = texture self.
Proof.
  intros Hwf Hrange Hused Hsize Hk.
  eexists. split; [by apply full_mask_run|]. by repeat split.
Qed.

Lemma vertex_of_renumber (pi : list Z) (t : tri) (v : Z) :
  vertex_of v t ->
  vertex_of (Np.to_uint32 (pi !!! Z.to_nat v)) (renumber pi t).
Proof.
  destruct t as [[a b] c]. simpl. intros [-> | [-> | ->]]; auto.
Qed.

(** X7: extraction is idempotent on its own results.  Whenever extraction
    of a mesh of at most 2^32 points returns a mesh, extracting from that
    mesh with the mask that retains all of its points returns the same mesh
    again. *)
Theorem extraction_is_idempotent_on_its_result self (mask : list bool)
    (astype : pyvalue) (log log' log2 : list event) new :
  length mask = n_points self ->
  Z.of_nat (n_points self) <= 2 ^ 32 ->
  trimesh_from_pointmask self mask astype log = (log', Ok new) ->
  trimesh_from_pointmask new (replicate (n_points new) true) (PyStr "self") log2 =
    (log2 ++ [Instantiate (cls new)], Ok new).
Proof.
  intros Hlen Hsize Hrun.
  destruct (tfp_geometry self mask astype Hlen) as (pi & Hranks & Hgeo).
  destruct (Hgeo _ _ _ Hrun) as [Hpts Htl].
  destruct (tfp_prefix self mask astype Hlen) as (pi' & _ & Heq).
  pose proof Hrun as Hfin. rewrite Heq in Hfin.
  apply finish_returns in Hfin as (_ & _ & _ & Hwf).
  assert (Hn : n_points new = length (kept_points self mask)).
  { unfold n_points, shape0. rewrite Hpts. unfold slice_rows. simpl.
    apply length_gather. by apply kept_points_in_range. }
  assert (Hle : (n_points new <= n_points self)%nat).
  { rewrite Hn. pose proof (length_kept_points_le self mask Hlen).
    pose proof (length_kept_by_mask self mask Hlen).
    pose proof (count_true_le mask). lia. }
  rewrite (full_mask_run new (PyStr "self") (cls new) log2); [by destruct new|..].
  - done.
  - rewrite Htl, Hn. apply Forall_forall. intros t' Ht'.
    apply list_elem_of_fmap in Ht' as (t & -> & Ht).
    assert (Hv : forall v, vertex_of v t ->
               0 <= Np.to_uint32 (pi !!! Z.to_nat v)
                 < Z.of_nat (length (kept_points self mask))).
    { intros v Hv.
      destruct (renumbered_vertex self mask pi t v Hlen Hsize Hranks Ht Hv)
        as (j & Hj & ->).
      apply lookup_lt_Some in Hj. lia. }
    destruct t as [[a b] c]. simpl. repeat split; apply Hv; simpl; auto.
  - intros i Hi. rewrite Hn in Hi.
    destruct (lookup_lt_is_Some_2 (kept_points self mask) (Z.to_nat i)) as [v Hv];
      [lia|].
    destruct (proj1 (elem_of_kept_points self mask Hlen v)
                (list_elem_of_lookup_2 _ _ _ Hv)) as (t & Ht & Hs & Hvt).
    assert (Hkt : t ∈ kept_tris self mask) by (by apply elem_of_kept_tris).
    exists (renumber pi t). split.
    + rewrite Htl. apply list_elem_of_fmap. eauto.
    + destruct (renumbered_vertex self mask pi t v Hlen Hsize Hranks Hkt Hvt)
        as (j & Hj & Hu).
      assert (j = Z.to_nat i).
      { eapply NoDup_lookup; [|exact Hj|exact Hv].
        apply sorted_lt_NoDup, kept_points_sorted. }
      subst j. rewrite Z2Nat.id in Hu by lia. rewrite <- Hu.
      by apply vertex_of_renumber.
  - lia.
  - reflexivity.
Qed.

End Invariant.

(** * Further properties of the field tables and of texture attachment *)

Section FieldOps.

Context {scalar : Type}.
Implicit Types (self s : TriMesh scalar) (f field tcoords : ndarray scalar).

Lemma attach_texture_wf tex tcoords (tl : option (list tri)) s :
  fields_wf s -> fields_wf (attach_texture tex tcoords tl s).1.
Proof.
  intros Hwf. unfold attach_texture, bind, modify, get, lift. simpl.
  assert (Hwf' := fields_wf_set_texture tex s Hwf).
  destruct tl as [tl|].
  - destruct (nd_take_tris tcoords tl) as [g|e]; [|done].
    by apply add_trifield_wf.
  - destruct (shape_eqb _ _); [by apply add_pointfield_wf|].
    destruct (shape_eqb _ _); [by apply add_trifield_wf|]. done.
Qed.

Lemma attach_texture_same_geometry tex tcoords (tl : option (list tri)) s :
  same_geometry s (attach_texture tex tcoords tl s).1.
Proof.
  unfold attach_texture, bind, modify, get, lift. simpl.
  destruct tl as [tl|].
  - destruct (nd_take_tris tcoords tl) as [g|e]; [|by repeat split].
    destruct (add_trifield "tcoords" g (set_texture tex s)) as [s' r] eqn:Ha.
    by apply add_trifield_same_geometry in Ha.
  - destruct (shape_eqb _ _).
    { destruct (add_pointfield "tcoords" tcoords (set_texture tex s)) as [s' r] eqn:Ha.
      by apply add_pointfield_same_geometry in Ha. }
    destruct (shape_eqb _ _); [|by repeat split].
    destruct (add_trifield "tcoords" tcoords (set_texture tex s)) as [s' r] eqn:Ha.
    by apply add_trifield_same_geometry in Ha.
Qed.

Lemma run_call_wf (c : call scalar) s : fields_wf s -> fields_wf (run_call c s).1.
Proof.
  destruct c; simpl;
    auto using add_trifield_wf, add_pointfield_wf, attach_texture_wf.
Qed.

Lemma run_call_same_geometry (c : call scalar) s : same_geometry s (run_call c s).1.
Proof.
  destruct c as [name f|name f|tex tc tl]; simpl.
  - destruct (add_trifield name f s) as [s' r] eqn:Ha.
    by apply add_trifield_same_geometry in Ha.
  - destruct (add_pointfield name f s) as [s' r] eqn:Ha.
    by apply add_pointfield_same_geometry in Ha.
  - apply attach_texture_same_geometry.
Qed.

Lemma after_calls_invariant (cs : list (call scalar)) s :
  fields_wf s ->
  fields_wf (after_calls cs s) /\ same_geometry s (after_calls cs s).
Proof.
  revert s. induction cs as [|k cs IH]; intros s Hs; simpl.
  - split; [done | by repeat split].
  - destruct (IH (run_call k s).1 (run_call_wf k s Hs)) as [Hw (H1 & H2 & H3)].
    destruct (run_call_same_geometry k s) as (G1 & G2 & G3).
    split; [done|]. repeat split; congruence.
Qed.

Lemma fields_wf_init (c : mesh_variant) (pts : ndarray scalar) (tl : list tri) :
  fields_wf (TriMesh_init c pts tl).
Proof. split; intros name f Hl; simpl in Hl; by rewrite lookup_empty in Hl. Qed.

(** X8: whatever calls of [add_trifield], [add_pointfield] and
    [attach_texture] are made on a freshly constructed mesh, returning or
    raising, the mesh keeps its class, points and triangles, and every stored
    field has the leading dimension of its owners. *)
Theorem field_invariant_survives_any_calls (c : mesh_variant)
    (pts : ndarray scalar) (tl : list tri) (cs : list (call scalar)) :
  fields_wf (after_calls cs (TriMesh_init c pts tl)) /\
  cls (after_calls cs (TriMesh_init c pts tl)) = c /\
  points (after_calls cs (TriMesh_init c pts tl)) = pts /\
  trilist (after_calls cs (TriMesh_init c pts tl)) = tl.
Proof.
  destruct (after_calls_invariant cs _ (fields_wf_init c pts tl))
    as [Hw (H1 & H2 & H3)].
  simpl in H1, H2, H3.
  split; [exact Hw|]. by repeat split.
Qed.

(** X9: a mesh built by the constructor and any calls of [add_trifield],
    [add_pointfield] and [attach_texture], returning or raising, can be
    extracted from with any mask over its points: the call returns. *)
Theorem extraction_returns_after_any_calls (c : mesh_variant)
    (pts : ndarray scalar) (tl : list tri) (cs : list (call scalar))
    (mask : list bool) (log : list event) :
  length mask = shape0 pts ->
  exists new,
    trimesh_from_pointmask (after_calls cs (TriMesh_init c pts tl)) mask
      (PyStr "self") log = (log ++ [Instantiate c], Ok new).
Proof.
  intros Hlen.
  destruct (after_calls_invariant cs _ (fields_wf_init c pts tl))
    as [Hw (H1 & H2 & H3)].
  simpl in H1, H2, H3.
  set (m := after_calls cs (TriMesh_init c pts tl)) in *.
  destruct (tfp_returns m mask (PyStr "self") c log) as (pi & _ & Hrun).
  - unfold n_points. by rewrite H2.
  - done.
  - simpl. by rewrite H1.
  - eauto.
Qed.

(** X10: a field accepted by [add_trifield] replaces whatever an earlier
    call stored under the same name; calls under different names can be
    made in either order, accepted or not. *)
Theorem add_trifield_overwrites_and_commutes (n1 n2 : string) f1 f2 s :
  (shape0 f2 = n_tris s ->
   (add_trifield n1 f2 (add_trifield n1 f1 s).1).1 = (add_trifield n1 f2 s).1) /\
  (n1 <> n2 ->
   (add_trifield n2 f2 (add_trifield n1 f1 s).1).1 =
   (add_trifield n1 f1 (add_trifield n2 f2 s).1).1).
Proof.
  split.
  - intros H2. rewrite (add_trifield_ok n1 f2 s) by done.
    destruct (decide (shape0 f1 = n_tris s)) as [H1|H1].
    + rewrite (add_trifield_ok n1 f1 s) by done. simpl.
      rewrite add_trifield_ok by done.
      unfold set_trifields. simpl. by rewrite insert_insert_eq.
    + rewrite (add_trifield_mismatch n1 f1 s) by done. simpl.
      by rewrite add_trifield_ok.
  - intros Hne.
    destruct (decide (shape0 f1 = n_tris s)) as [H1|H1];
      destruct (decide (shape0 f2 = n_tris s)) as [H2|H2].
    + rewrite (add_trifield_ok n1 f1 s), (add_trifield_ok n2 f2 s) by done.
      simpl. rewrite !add_trifield_ok by done.
      unfold set_trifields. simpl. f_equal. by apply insert_insert_ne.
    + rewrite (add_trifield_ok n1 f1 s), (add_trifield_mismatch n2 f2 s) by done.
      simpl. rewrite (add_trifield_mismatch n2 f2) by exact H2.
      by rewrite add_trifield_ok.
    + rewrite (add_trifield_mismatch n1 f1 s), (add_trifield_ok n2 f2 s) by done.
      simpl. rewrite (add_trifield_mismatch n1 f1) by exact H1.
      by rewrite add_trifield_ok.
    + rewrite (add_trifield_mismatch n1 f1 s), (add_trifield_mismatch n2 f2 s) by done.
      simpl. by rewrite !add_trifield_mismatch.
Qed.

End FieldOps.

Section Texture.

Context {scalar : Type}.
Implicit Types (self s : TriMesh scalar) (f field tcoords : ndarray scalar).

Lemma take_tris_in_range {A} (a : list A) (tl : list tri) :
  Forall (tri_in_range (length a)) tl ->
  exists rs, take_tris a tl = Ok rs /\
    Forall2 (fun t r => match t, r with
                        | (i, j, k), (x, y, z) =>
                            a !! Z.to_nat i = Some x /\
                            a !! Z.to_nat j = Some y /\
                            a !! Z.to_nat k = Some z
                        end) tl rs.
Proof.
  induction 1 as [|[[i j] k] tl (Hi & Hj & Hk) _ (rs & Hrs & Hall)].
  - exists []. split; [done | constructor].
  - destruct (lookup_lt_is_Some_2 a (Z.to_nat i)) as [x Hx]; [lia|].
    destruct (lookup_lt_is_Some_2 a (Z.to_nat j)) as [y Hy]; [lia|].
    destruct (lookup_lt_is_Some_2 a (Z.to_nat k)) as [z Hz]; [lia|].
    exists ((x, y, z) :: rs). unfold take_tris in *. simpl.
    rewrite (getitem_in_range a i x), (getitem_in_range a j y),
      (getitem_in_range a k z) by (done || lia).
    simpl. rewrite Hrs. simpl. split; [done|]. by constructor.
Qed.

Lemma getitem_error {A} (a : list A) (i : Z) (e : exn) :
  Np.getitem a i = Err e -> e = IndexError.
Proof.
  unfold Np.getitem, Np.norm_index.
  destruct (_ && _); simpl.
  { destruct (a !! _); [done | by intros [= <-]]. }
  destruct (_ && _); simpl; [|by intros [= <-]].
  destruct (a !! _); [done | by intros [= <-]].
Qed.

Lemma getitem_unaddressable {A} (a : list A) (i : Z) :
  ~ (- Z.of_nat (length a) <= i < Z.of_nat (length a)) ->
  Np.getitem a i = Err IndexError.
Proof.
  intros Hi. unfold Np.getitem, Np.norm_index.
  destruct (Z.leb_spec 0 i), (Z.ltb_spec i (Z.of_nat (length a))); simpl; try lia;
    destruct (Z.leb_spec (- Z.of_nat (length a)) i), (Z.ltb_spec i 0);
    simpl; try lia; done.
Qed.

Lemma take_tris_error {A} (a : list A) (tl : list tri) (e : exn) :
  take_tris a tl = Err e -> e = IndexError.
Proof.
  unfold take_tris. induction tl as [|[[i j] k] tl IH]; simpl; [done|].
  destruct (Np.getitem a i) eqn:Hi; simpl; [|intros [= <-]; by eapply getitem_error].
  destruct (Np.getitem a j) eqn:Hj; simpl; [|intros [= <-]; by eapply getitem_error].
  destruct (Np.getitem a k) eqn:Hk; simpl; [|intros [= <-]; by eapply getitem_error].
  match goal with |- context [mapR ?g tl] => destruct (mapR g tl) end;
    simpl; [done|]. intros [= <-]. by apply IH.
Qed.

Lemma take_tris_unaddressable {A} (a : list A) (tl : list tri) :
  Exists (tri_unaddressable (length a)) tl -> take_tris a tl = Err IndexError.
Proof.
  intros Hex.
  assert (Hfail : exists e, take_tris a tl = Err e).
  { unfold take_tris. induction Hex as [[[i j] k] tl Hbad | [[i j] k] tl _ IH]; simpl.
    - destruct Hbad as [Hb | [Hb | Hb]];
        rewrite (getitem_unaddressable a _ Hb);
        repeat (match goal with
                | |- context [rbind (Np.getitem ?a ?i) _] =>
                    destruct (Np.getitem a i); simpl
                end); eauto.
    - destruct IH as [e He]. rewrite He.
      repeat (match goal with
              | |- context [rbind (Np.getitem ?a ?i) _] =>
                  destruct (Np.getitem a i); simpl
              end); eauto. }
  destruct Hfail as [e He]. by rewrite He, (take_tris_error _ _ _ He).
Qed.

(** X11: with a texture-private triangle index whose entries address rows
    of the coordinate array and that has one entry per triangle of the mesh,
    [attach_texture] returns; it stores, whatever the shape of the
    coordinates, a triangle field ["tcoords"] of shape (T, 3) followed by
    the trailing shape of the coordinates, whose row for a triangle holds the
    coordinates at its three corners, and leaves the point fields alone. *)
Theorem attach_texture_with_private_index tex tcoords (tl : list tri) self :
  Forall (tri_in_range (shape0 tcoords)) tl ->
  length tl = n_tris self ->
  exists g,
    attach_texture tex tcoords (Some tl) self =
      (set_trifields (insert "tcoords" g) (set_texture tex self), Ok tt) /\
    shape g = n_tris self :: 3%nat :: item_shape tcoords /\
    Forall2 (corner_rows tcoords) tl (rows g).
Proof.
  intros Hrange Hlen.
  destruct (take_tris_in_range (rows tcoords) tl Hrange) as (rs & Hrs & Hall).
  exists (mk_ndarray (3%nat :: item_shape tcoords)
            (map (fun r => match r with (x, y, z) => x ++ y ++ z end) rs)).
  assert (Hlen' : length rs = n_tris self).
  { rewrite <- Hlen. symmetry. by eapply Forall2_length. }
  split; [|split].
  - unfold attach_texture, bind, modify, get, lift, nd_take_tris. simpl.
    rewrite Hrs. simpl. rewrite add_trifield_ok; [done|].
    unfold shape0. simpl. by rewrite length_map.
  - unfold shape. simpl. by rewrite length_map, Hlen'.
  - simpl. apply Forall2_fmap_r. eapply Forall2_impl; [exact Hall|].
    intros [[a b] c] [[x y] z] (Hx & Hy & Hz). simpl. eauto 10.
Qed.

(** X12: when the texture-private index addresses the coordinate array
    properly but has not one entry per triangle, [attach_texture] raises
    [TriFieldError] with both sizes; when one of its entries addresses no
    row of the coordinate array, it raises [IndexError].  Either way the
    texture is stored and both field tables are as before. *)
Theorem attach_texture_with_bad_private_index tex tcoords (tl : list tri) self :
  (Forall (tri_in_range (shape0 tcoords)) tl ->
   length tl <> n_tris self ->
   attach_texture tex tcoords (Some tl) self =
     (set_texture tex self,
      Err (TriFieldError
        ("Trying to add a field with " ++ repr_nat (length tl) ++
         " values (need one field value per tri => " ++
         repr_nat (n_tris self) ++ " values required")))) /\
  (Exists (tri_unaddressable (shape0 tcoords)) tl ->
   attach_texture tex tcoords (Some tl) self = (set_texture tex self, Err IndexError)).
Proof.
  split.
  - intros Hrange Hlen.
    destruct (take_tris_in_range (rows tcoords) tl Hrange) as (rs & Hrs & Hall).
    apply Forall2_length in Hall.
    unfold attach_texture, bind, modify, get, lift, nd_take_tris. simpl.
    rewrite Hrs. simpl. rewrite add_trifield_mismatch.
    + unfold shape0. simpl. by rewrite length_map, <- Hall.
    + unfold shape0. simpl. rewrite length_map, <- Hall. exact Hlen.
  - intros Hbad.
    unfold attach_texture, bind, modify, get, lift, nd_take_tris. simpl.
    by rewrite (take_tris_unaddressable (rows tcoords) tl Hbad).
Qed.

Lemma attach_texture_by_shape tex tcoords self :
  (shape tcoords = [n_points self; 2%nat] ->
   attach_texture tex tcoords None self =
     (set_pointfields (insert "tcoords" tcoords) (set_texture tex self), Ok tt)) /\
  (shape tcoords = [n_tris self; 3%nat; 2%nat] ->
   attach_texture tex tcoords None self =
     (set_trifields (insert "tcoords" tcoords) (set_texture tex self), Ok tt)).
Proof.
  split; intros Hshape.
  - unfold attach_texture, bind, modify, get, shape_eqb. simpl.
    rewrite bool_decide_eq_true_2 by done.
    apply add_pointfield_ok. by injection Hshape.
  - unfold attach_texture, bind, modify, get, shape_eqb. simpl.
    rewrite bool_decide_eq_false_2 by (by rewrite Hshape).
    rewrite bool_decide_eq_true_2 by done.
    apply add_trifield_ok. by injection Hshape.
Qed.

(** X13: without a private index, coordinates of shape (N, 2) are stored as
    the point field ["tcoords"] and coordinates of shape (T, 3, 2) as the
    triangle field ["tcoords"]; the call returns and the other table is left
    alone. *)
Theorem attach_texture_dispatches_on_shape tex tcoords self :
  (shape tcoords = [n_points self; 2%nat] ->
   attach_texture tex tcoords None self =
     (set_pointfields (insert "tcoords" tcoords) (set_texture tex self), Ok tt)) /\
  (shape tcoords = [n_tris self; 3%nat; 2%nat] ->
   attach_texture tex tcoords None self =
     (set_trifields (insert "tcoords" tcoords) (set_texture tex self), Ok tt)).
Proof.
  split; intros Hshape.
  - unfold attach_texture, bind, modify, get, shape_eqb. simpl.
    rewrite bool_decide_eq_true_2 by done.
    apply add_pointfield_ok. by injection Hshape.
  - unfold attach_texture, bind, modify, get, shape_eqb. simpl.
    rewrite bool_decide_eq_false_2 by (by rewrite Hshape).
    rewrite bool_decide_eq_true_2 by done.
    apply add_trifield_ok. by injection Hshape.
Qed.

(** X14: a call of [attach_texture], returning or raising, changes nothing
    of a mesh besides its texture and the entry ["tcoords"] of at most one
    of the two field tables; it never removes an entry, so coordinates
    attached earlier to the other table stay there. *)
Theorem attach_texture_touches_only_tcoords tex tcoords
    (tl : option (list tri)) self :
  let self' := (attach_texture tex tcoords tl self).1 in
  cls self' = cls self /\ points self' = points self /\
  trilist self' = trilist self /\
  (forall name, name <> "tcoords" ->
     pointfields self' !! name = pointfields self !! name /\
     trifields self' !! name = trifields self !! name) /\
  dom (pointfields self) ⊆ dom (pointfields self') /\
  dom (trifields self) ⊆ dom (trifields self') /\
  (pointfields self' = pointfields self \/ trifields self' = trifields self).
Proof.
  assert (Htri : forall g s,
            pointfields (add_trifield "tcoords" g s).1 = pointfields s /\
            (trifields (add_trifield "tcoords" g s).1 = trifields s \/
             trifields (add_trifield "tcoords" g s).1 = <["tcoords" := g]> (trifields s))).
  { intros g s. unfold add_trifield, bind, get. simpl.
    destruct (Nat.eqb _ _); simpl; auto. }
  assert (Hpt : forall g s,
            trifields (add_pointfield "tcoords" g s).1 = trifields s /\
            (pointfields (add_pointfield "tcoords" g s).1 = pointfields s \/
             pointfields (add_pointfield "tcoords" g s).1 =
               <["tcoords" := g]> (pointfields s))).
  { intros g s. unfold add_pointfield, bind, get. simpl.
    destruct (Nat.eqb _ _); simpl; auto. }
  destruct (attach_texture_same_geometry tex tcoords tl self) as (G1 & G2 & G3).
  intros self'. split; [done|]. split; [done|]. split; [done|].
  assert (Hcases :
    (pointfields self' = pointfields self /\
     (trifields self' = trifields self \/
      exists g, trifields self' = <["tcoords" := g]> (trifields self))) \/
    (trifields self' = trifields self /\
     (pointfields self' = pointfields self \/
      exists g, pointfields self' = <["tcoords" := g]> (pointfields self)))).
  { subst self'. unfold attach_texture, bind, modify, get, lift. simpl.
    destruct tl as [tl|].
    - destruct (nd_take_tris tcoords tl) as [g|e]; [|left; auto].
      destruct (Htri g (set_texture tex self)) as [-> [-> | ->]]; left; eauto.
    - destruct (shape_eqb _ _).
      { destruct (Hpt tcoords (set_texture tex self)) as [-> [-> | ->]]; right; eauto. }
      destruct (shape_eqb _ _); [|left; auto].
      destruct (Htri tcoords (set_texture tex self)) as [-> [-> | ->]]; left; eauto. }
  destruct Hcases as [[-> [-> | [g ->]]] | [-> [-> | [g ->]]]];
    (split; [intros name Hname; by rewrite ?lookup_insert_ne|]);
    (split; [try done; apply dom_insert_subseteq|]);
    (split; [try done; apply dom_insert_subseteq|]); auto.
Qed.

End Texture.


(** * Properties of [view] and further properties of [apply] *)

Section Viewing.

Context {scalar : Type}.
Variable truth : texture_ref -> result bool.
Implicit Types (self : TriMesh scalar) (tcoords : ndarray scalar).

(** X15: asked for an untextured view, or on a mesh without texture, [view]
    builds the plain viewer from the points, the triangles and the two
    ["color"] fields (absent ones as [None]); the truth value of the texture
    is not even evaluated. *)
Theorem view_without_texture_is_plain self (textured : bool) :
  textured = false \/ texture self = None ->
  view truth self textured =
    Ok (TriMeshViewer3d (points self) (trilist self)
          (trifields self !! "color") (pointfields self !! "color")).
Proof.
  unfold view, textured_and_texture.
  intros [-> | Htex]; [done|]. rewrite Htex. by destruct textured.
Qed.

(** X16: once [attach_texture] has stored coordinates for a texture that
    counts as true, the textured view is built from them: per-triangle
    coordinates of shape (T, 3, 2), or per-point coordinates of shape
    (N, 2), are handed to the viewer, together with whatever ["tcoords"]
    entry the other table already held. *)
Theorem view_after_attach_texture_uses_attached_coordinates
    (t : texture_ref) tcoords self :
  truth t = Ok true ->
  (shape tcoords = [n_tris self; 3%nat; 2%nat] ->
   view truth (attach_texture (Some t) tcoords None self).1 true =
     Ok (TexturedTriMeshViewer3d (points self) (trilist self) t
           (Some tcoords) (pointfields self !! "tcoords"))) /\
  (shape tcoords = [n_points self; 2%nat] ->
   view truth (attach_texture (Some t) tcoords None self).1 true =
     Ok (TexturedTriMeshViewer3d (points self) (trilist self) t
           (trifields self !! "tcoords") (Some tcoords))).
Proof.
  intros Ht. split; intros Hshape.
  - rewrite (proj2 (attach_texture_by_shape (Some t) tcoords self) Hshape).
    unfold view, textured_and_texture. simpl. rewrite Ht. simpl.
    by rewrite lookup_insert_eq.
  - rewrite (proj1 (attach_texture_by_shape (Some t) tcoords self) Hshape).
    unfold view, textured_and_texture. simpl. rewrite Ht. simpl.
    by rewrite lookup_insert_eq.
Qed.

End Viewing.

Section Raising.

Context {value kwargs T : Type} `{Tr : Transform.Transform value kwargs T}.
Implicit Types (self : T) (x : Transform.target value) (kw : kwargs).


End Raising.

(** * The further properties on concrete inputs *)

Lemma coloured_mesh_run :
  trimesh_from_pointmask coloured_mesh [true; true; true; false]
    (PyClass ClsTriMesh) [] = ([Instantiate PlainTriMesh], Ok closed_mesh).
Proof. vm_compute. reflexivity. Defined.

Lemma small_mesh : Z.of_nat (n_points coloured_mesh) <= 2 ^ 32.
Proof. vm_compute. discriminate. Defined.

Lemma X1_witness : fields_wf closed_mesh.
Proof.
  apply (extraction_result_keeps_field_invariant coloured_mesh
           [true; true; true; false] (PyClass ClsTriMesh) []
           [Instantiate PlainTriMesh] closed_mesh).
  - reflexivity.
  - exact coloured_mesh_run.
Defined.

Lemma X2_witness :
  requested_class coloured_mesh (PyClass ClsTriMesh) = Some (cls closed_mesh) /\
  [Instantiate PlainTriMesh] = [] ++ [Instantiate (cls closed_mesh)] /\
  texture closed_mesh = texture coloured_mesh.
Proof.
  apply (extraction_constructs_requested_class_once coloured_mesh
           [true; true; true; false] (PyClass ClsTriMesh) []
           [Instantiate PlainTriMesh] closed_mesh).
  - reflexivity.
  - exact coloured_mesh_run.
Defined.

Lemma X3_witness :
  exists kept tmask,
    StronglySorted Z.lt kept /\
    (forall i, i ∈ kept <->
               used_by_survivor coloured_mesh [true; true; true; false] i) /\
    gathered kept (points coloured_mesh) (points closed_mesh) /\
    length tmask = n_tris coloured_mesh /\
    (forall k, tmask !! k = Some true <->
               exists t, trilist coloured_mesh !! k = Some t /\
                         survives [true; true; true; false] t) /\
    Forall2 (renumbered_by kept) (Np.compress tmask (trilist coloured_mesh))
      (trilist closed_mesh).
Proof.
  apply (extraction_keeps_triangle_corners coloured_mesh
           [true; true; true; false] (PyClass ClsTriMesh) []
           [Instantiate PlainTriMesh] closed_mesh).
  - reflexivity.
  - exact small_mesh.
  - exact coloured_mesh_run.
Defined.

Lemma X4_witness :
  exists new kept tmask,
    trimesh_from_pointmask coloured_mesh [true; true; true; false]
      (PyClass ClsTriMesh) [] = ([] ++ [Instantiate PlainTriMesh], Ok new) /\
    gathered kept (points coloured_mesh) (points new) /\
    length tmask = n_tris coloured_mesh /\
    (forall k, tmask !! k = Some true <->
               exists t, trilist coloured_mesh !! k = Some t /\
                         survives [true; true; true; false] t) /\
    n_tris new = length (Np.compress tmask (trilist coloured_mesh)) /\
    dom (pointfields new) = dom (pointfields coloured_mesh) /\
    dom (trifields new) = dom (trifields coloured_mesh) /\
    (forall name f, pointfields coloured_mesh !! name = Some f ->
       exists f', pointfields new !! name = Some f' /\ gathered kept f f') /\
    (forall name f, trifields coloured_mesh !! name = Some f ->
       exists f', trifields new !! name = Some f' /\
                  item_shape f' = item_shape f /\
                  rows f' = Np.compress tmask (rows f)).
Proof.
  apply (extraction_slices_fields_in_step coloured_mesh [true; true; true; false]
           (PyClass ClsTriMesh) PlainTriMesh []).
  - reflexivity.
  - exact coloured_mesh_wf.
  - reflexivity.
Defined.

Lemma X5_witness :
  (n_points closed_mesh <= count_true [true; true; true; false])%nat /\
  (count_true [true; true; true; false] <= n_points coloured_mesh)%nat /\
  (n_tris closed_mesh <= n_tris coloured_mesh)%nat.
Proof.
  apply (extraction_never_grows coloured_mesh [true; true; true; false]
           (PyClass ClsTriMesh) [] [Instantiate PlainTriMesh] closed_mesh).
  - reflexivity.
  - exact coloured_mesh_run.
Defined.

Lemma X6_witness :
  exists new,
    trimesh_from_pointmask closed_mesh (replicate (n_points closed_mesh) true)
      (PyClass ClsFastTriMesh) [] = ([] ++ [Instantiate FastTriMesh], Ok new) /\
    cls new = FastTriMesh /\ points new = points closed_mesh /\
    trilist new = trilist closed_mesh /\
    pointfields new = pointfields closed_mesh /\
    trifields new = trifields closed_mesh /\
    texture new = texture closed_mesh.
Proof.
  apply (full_mask_extraction_converts_class closed_mesh ClsFastTriMesh FastTriMesh []).
  - exact closed_mesh_wf.
  - change (n_points closed_mesh) with 3%nat.
    constructor; [simpl; lia | constructor].
  - intros i Hi. exists (0, 1, 2). split.
    + simpl. left.
    + change (Z.of_nat (n_points closed_mesh)) with 3 in Hi. simpl. lia.
  - vm_compute. discriminate.
  - reflexivity.
Defined.

Lemma X7_witness :
  trimesh_from_pointmask closed_mesh (replicate (n_points closed_mesh) true)
    (PyStr "self") [] = ([] ++ [Instantiate (cls closed_mesh)], Ok closed_mesh).
Proof.
  apply (extraction_is_idempotent_on_its_result coloured_mesh
           [true; true; true; false] (PyClass ClsTriMesh) []
           [Instantiate PlainTriMesh] [] closed_mesh).
  - reflexivity.
  - exact small_mesh.
  - exact coloured_mesh_run.
Defined.

Lemma X9_witness :
  exists new,
    trimesh_from_pointmask
      (after_calls some_calls (TriMesh_init PlainTriMesh (points scenario_mesh) [(0, 1, 2)]))
      [true; true; true; false] (PyStr "self") [] =
    ([] ++ [Instantiate PlainTriMesh], Ok new).
Proof.
  apply (extraction_returns_after_any_calls PlainTriMesh (points scenario_mesh)
           [(0, 1, 2)] some_calls [true; true; true; false] []).
  reflexivity.
Defined.

Lemma X10_witness :
  (add_trifield "area" other_area (add_trifield "area" one_area scenario_mesh).1).1 =
    (add_trifield "area" other_area scenario_mesh).1 /\
  (add_trifield "weight" two_areas (add_trifield "area" one_area scenario_mesh).1).1 =
    (add_trifield "area" one_area (add_trifield "weight" two_areas scenario_mesh).1).1.
Proof.
  split.
  - apply (proj1 (add_trifield_overwrites_and_commutes "area" "area"
                    one_area other_area scenario_mesh)).
    reflexivity.
  - apply (proj2 (add_trifield_overwrites_and_commutes "area" "weight"
                    one_area two_areas scenario_mesh)).
    discriminate.
Defined.

Lemma X11_witness :
  exists g,
    attach_texture (Some 7%nat) uv_per_point (Some uv_index) scenario_mesh =
      (set_trifields (insert "tcoords" g) (set_texture (Some 7%nat) scenario_mesh),
       Ok tt) /\
    shape g = n_tris scenario_mesh :: 3%nat :: item_shape uv_per_point /\
    Forall2 (corner_rows uv_per_point) uv_index (rows g).
Proof.
  apply (attach_texture_with_private_index (Some 7%nat) uv_per_point uv_index
           scenario_mesh).
  - change (shape0 uv_per_point) with 4%nat.
    constructor; [simpl; lia | constructor].
  - reflexivity.
Defined.

Lemma X12_witness :
  attach_texture (Some 7%nat) uv_per_point (Some [(0, 1, 2); (1, 2, 3)]) scenario_mesh =
    (set_texture (Some 7%nat) scenario_mesh,
     Err (TriFieldError
       ("Trying to add a field with " ++ repr_nat 2 ++
        " values (need one field value per tri => " ++
        repr_nat 1 ++ " values required"))) /\
  attach_texture (Some 7%nat) uv_per_point (Some [(0, 1, 9)]) scenario_mesh =
    (set_texture (Some 7%nat) scenario_mesh, Err IndexError).
Proof.
  split.
  - apply (proj1 (attach_texture_with_bad_private_index (Some 7%nat) uv_per_point
                    [(0, 1, 2); (1, 2, 3)] scenario_mesh)).
    + change (shape0 uv_per_point) with 4%nat.
      repeat (constructor; [simpl; lia|]). constructor.
    + vm_compute. lia.
  - apply (proj2 (attach_texture_with_bad_private_index (Some 7%nat) uv_per_point
                    [(0, 1, 9)] scenario_mesh)).
    left. change (shape0 uv_per_point) with 4%nat. simpl. lia.
Defined.

Lemma X13_witness :
  attach_texture (Some 7%nat) uv_per_point None scenario_mesh =
    (set_pointfields (insert "tcoords" uv_per_point)
       (set_texture (Some 7%nat) scenario_mesh), Ok tt) /\
  attach_texture (Some 7%nat) uv_per_tri None scenario_mesh =
    (set_trifields (insert "tcoords" uv_per_tri)
       (set_texture (Some 7%nat) scenario_mesh), Ok tt).
Proof.
  split.
  - apply (proj1 (attach_texture_dispatches_on_shape (Some 7%nat) uv_per_point
                    scenario_mesh)).
    reflexivity.
  - apply (proj2 (attach_texture_dispatches_on_shape (Some 7%nat) uv_per_tri
                    scenario_mesh)).
    reflexivity.
Defined.

Lemma X15_witness :
  view any_texture_true scenario_mesh true =
    Ok (TriMeshViewer3d (points scenario_mesh) (trilist scenario_mesh)
          (trifields scenario_mesh !! "color") (pointfields scenario_mesh !! "color")).
Proof.
  apply (view_without_texture_is_plain any_texture_true scenario_mesh true).
  right. reflexivity.
Defined.

Lemma X16_witness :
  view any_texture_true
    (attach_texture (Some 7%nat) uv_per_tri None scenario_mesh).1 true =
    Ok (TexturedTriMeshViewer3d (points scenario_mesh) (trilist scenario_mesh) 7%nat
          (Some uv_per_tri) (pointfields scenario_mesh !! "tcoords")) /\
  view any_texture_true
    (attach_texture (Some 7%nat) uv_per_point None scenario_mesh).1 true =
    Ok (TexturedTriMeshViewer3d (points scenario_mesh) (trilist scenario_mesh) 7%nat
          (trifields scenario_mesh !! "tcoords") (Some uv_per_point)).
Proof.
  destruct (view_after_attach_texture_uses_attached_coordinates any_texture_true
              7%nat uv_per_tri scenario_mesh eq_refl) as [Htri _].
  destruct (view_after_attach_texture_uses_attached_coordinates any_texture_true
              7%nat uv_per_point scenario_mesh eq_refl) as [_ Hpt].
  split; [apply Htri | apply Hpt]; reflexivity.
Defined.



(** A class derived from [TriMesh] elsewhere is accepted by [issubclass]
    and constructed. *)
Example derived_class_accepted :
  trimesh_from_pointmask scenario_mesh [true; true; true; false]
    (PyClass (ClsDerived "app.MyMesh")) [] =
    ([Instantiate (DerivedTriMesh "app.MyMesh")],
     Ok (TriMesh_init (DerivedTriMesh "app.MyMesh")
           (mk_ndarray [3%nat] [[0; 0; 0]; [1; 0; 0]; [0; 1; 0]]) [(0, 1, 2)])).
Proof. vm_compute. reflexivity. Qed.
